(** * A shallow embedding of [scripts/load_test_users.py]

    The script drives a remote user service through two remote calls
    (Register, Login), counts the outcomes and prints statistics.  It is
    embedded here as a program in a state-and-exception monad over a
    [World]: the tester object ([self]), the state of Python's pseudo-random
    generator, what was printed, what was sent to the remote service, and
    the state of everything outside the process.  The outside (remote
    service, clock, terminal, thread scheduling) is given by oracles, which
    are variables of the section [Harness]; theorems hold for all of them.

    Conventions.
    - Python [int] is [Z]; a clock reading or a duration (a Python [float])
      is a [Z] number of milliseconds, so that [x / 0.0] raising
      [ZeroDivisionError] is kept.
    - [self.stats] is a dict whose seven keys are fixed in [__init__] and
      only ever accessed by literal key: it is a record with seven fields.
      The dicts returned by [register_user] and [login_user] have different
      keys on different paths and are read with [d[k]] and [d.get(k)]: they
      are association lists.
    - Each block of consecutive [print] calls is one [Msg].
    - A task run by the worker pool is one atomic step of the world: the
      interleaving of the bytecodes of two workers is not modelled. *)

From Stdlib Require Import ZArith List String Ascii Bool Lia DecimalString
  DecimalZ Permutation.
Import ListNotations.
Open Scope string_scope.
Open Scope list_scope.
Open Scope Z_scope.

Set Implicit Arguments.

(** ** gRPC status codes, exceptions, results *)

Inductive StatusCode :=
| OK | CANCELLED | UNKNOWN | INVALID_ARGUMENT | DEADLINE_EXCEEDED | NOT_FOUND
| ALREADY_EXISTS | PERMISSION_DENIED | RESOURCE_EXHAUSTED
| FAILED_PRECONDITION | ABORTED | OUT_OF_RANGE | UNIMPLEMENTED | INTERNAL
| UNAVAILABLE | DATA_LOSS | UNAUTHENTICATED.

(** [e.code() == grpc.StatusCode.X] *)
Definition code_eqb (a b : StatusCode) : bool :=
  match a, b with
  | OK, OK | CANCELLED, CANCELLED | UNKNOWN, UNKNOWN
  | INVALID_ARGUMENT, INVALID_ARGUMENT
  | DEADLINE_EXCEEDED, DEADLINE_EXCEEDED | NOT_FOUND, NOT_FOUND
  | ALREADY_EXISTS, ALREADY_EXISTS | PERMISSION_DENIED, PERMISSION_DENIED
  | RESOURCE_EXHAUSTED, RESOURCE_EXHAUSTED
  | FAILED_PRECONDITION, FAILED_PRECONDITION | ABORTED, ABORTED
  | OUT_OF_RANGE, OUT_OF_RANGE | UNIMPLEMENTED, UNIMPLEMENTED
  | INTERNAL, INTERNAL | UNAVAILABLE, UNAVAILABLE | DATA_LOSS, DATA_LOSS
  | UNAUTHENTICATED, UNAUTHENTICATED => true
  | _, _ => false
  end.

(** The exceptions the script can see.  [RpcError] is [grpc.RpcError], with
    its status code and the text [str(e)]; [KeyboardInterrupt] is not a
    subclass of [Exception]; [OtherException] is any other subclass of
    [Exception], with the name of its class and [str(e)]. *)
Inductive exn :=
| RpcError (code : StatusCode) (text : string)
| KeyboardInterrupt
| OtherException (class text : string).

Definition str (e : exn) : string :=
  match e with
  | RpcError _ text => text
  | KeyboardInterrupt => ""
  | OtherException _ text => text
  end.

Inductive Res (A : Type) :=
| Ok (a : A)
| Raise (e : exn).
Arguments Ok {A} a.
Arguments Raise {A} e.

(** ** Dict values *)

Inductive value :=
| VBool (b : bool)
| VStr (s : string).

Definition dict := list (string * value).

(** [d.get(k)] *)
Fixpoint dict_get (k : string) (d : dict) : option value :=
  match d with
  | [] => None
  | (k', v) :: d' => if String.eqb k k' then Some v else dict_get k d'
  end.

(** Truth value of [d.get(k)], as tested by [if]: [None], [False] and the
    empty string are false. *)
Definition truthy (v : option value) : bool :=
  match v with
  | None => false
  | Some (VBool b) => b
  | Some (VStr s) => negb (String.eqb s "")
  end.

(** ** Messages of the remote contract

    The generated protobuf module is not part of the script; only the
    fields the script writes or reads are kept. *)

Record RegisterRequest := {
  req_email : string;
  req_password : string;
  req_username : string
}.

Record LoginRequest := {
  login_email : string;
  login_password : string
}.

Record User := { id : string }.
Record RegisterResponse := { user : User }.
Record LoginResponse := { access_token : string }.

(** What goes out on the channel: the request and the [timeout] argument
    of the call, in seconds ([None] would be a call without deadline). *)
Inductive RpcCall :=
| CallRegister (request : RegisterRequest) (timeout : option Z)
| CallLogin (request : LoginRequest) (timeout : option Z).

Definition call_timeout (c : RpcCall) : option Z :=
  match c with
  | CallRegister _ t => t
  | CallLogin _ t => t
  end.

(** ** The tester object *)

Definition Time := Z.

Record Stats := {
  register_success : Z;
  register_failed : Z;
  register_rate_limited : Z;
  login_success : Z;
  login_failed : Z;
  login_rate_limited : Z;
  total_time : Time
}.

Record Channel := { target : string }.
Record UserServiceStub := { stub_channel : Channel }.

Record UserLoadTester := {
  grpc_host : string;
  grpc_port : Z;
  num_users : Z;
  channel : option Channel;
  stub : option UserServiceStub;
  stats : Stats;
  created_users : list dict
}.

(** [UserLoadTester.__init__] *)
Definition init (host : string) (port : Z) (n : Z) : UserLoadTester :=
  {| grpc_host := host;
     grpc_port := port;
     num_users := n;
     channel := None;
     stub := None;
     stats := {| register_success := 0;
                 register_failed := 0;
                 register_rate_limited := 0;
                 login_success := 0;
                 login_failed := 0;
                 login_rate_limited := 0;
                 total_time := 0 |};
     created_users := [] |}.

(** The six counters, as keys of [self.stats]. *)
Inductive Counter :=
| Register_success | Register_failed | Register_rate_limited
| Login_success | Login_failed | Login_rate_limited.

(** [stats[c]] *)
Definition count (c : Counter) (s : Stats) : Z :=
  match c with
  | Register_success => register_success s
  | Register_failed => register_failed s
  | Register_rate_limited => register_rate_limited s
  | Login_success => login_success s
  | Login_failed => login_failed s
  | Login_rate_limited => login_rate_limited s
  end.

(** [stats[c] += 1] *)
Definition incr (c : Counter) (s : Stats) : Stats :=
  match c with
  | Register_success =>
      {| register_success := register_success s + 1;
         register_failed := register_failed s;
         register_rate_limited := register_rate_limited s;
         login_success := login_success s;
         login_failed := login_failed s;
         login_rate_limited := login_rate_limited s;
         total_time := total_time s |}
  | Register_failed =>
      {| register_success := register_success s;
         register_failed := register_failed s + 1;
         register_rate_limited := register_rate_limited s;
         login_success := login_success s;
         login_failed := login_failed s;
         login_rate_limited := login_rate_limited s;
         total_time := total_time s |}
  | Register_rate_limited =>
      {| register_success := register_success s;
         register_failed := register_failed s;
         register_rate_limited := register_rate_limited s + 1;
         login_success := login_success s;
         login_failed := login_failed s;
         login_rate_limited := login_rate_limited s;
         total_time := total_time s |}
  | Login_success =>
      {| register_success := register_success s;
         register_failed := register_failed s;
         register_rate_limited := register_rate_limited s;
         login_success := login_success s + 1;
         login_failed := login_failed s;
         login_rate_limited := login_rate_limited s;
         total_time := total_time s |}
  | Login_failed =>
      {| register_success := register_success s;
         register_failed := register_failed s;
         register_rate_limited := register_rate_limited s;
         login_success := login_success s;
         login_failed := login_failed s + 1;
         login_rate_limited := login_rate_limited s;
         total_time := total_time s |}
  | Login_rate_limited =>
      {| register_success := register_success s;
         register_failed := register_failed s;
         register_rate_limited := register_rate_limited s;
         login_success := login_success s;
         login_failed := login_failed s;
         login_rate_limited := login_rate_limited s + 1;
         total_time := total_time s |}
  end.

(** [stats['total_time'] = t] *)
Definition set_total_time (t : Time) (s : Stats) : Stats :=
  {| register_success := register_success s;
     register_failed := register_failed s;
     register_rate_limited := register_rate_limited s;
     login_success := login_success s;
     login_failed := login_failed s;
     login_rate_limited := login_rate_limited s;
     total_time := t |}.

Definition set_stats (s : Stats) (t : UserLoadTester) : UserLoadTester :=
  {| grpc_host := grpc_host t; grpc_port := grpc_port t;
     num_users := num_users t; channel := channel t; stub := stub t;
     stats := s; created_users := created_users t |}.

Definition set_created_users (l : list dict) (t : UserLoadTester)
  : UserLoadTester :=
  {| grpc_host := grpc_host t; grpc_port := grpc_port t;
     num_users := num_users t; channel := channel t; stub := stub t;
     stats := stats t; created_users := l |}.

Definition set_connection (c : option Channel) (s : option UserServiceStub)
  (t : UserLoadTester) : UserLoadTester :=
  {| grpc_host := grpc_host t; grpc_port := grpc_port t;
     num_users := num_users t; channel := c; stub := s;
     stats := stats t; created_users := created_users t |}.

(** ** What the script prints *)

Inductive Op := OpRegister | OpLogin.

Inductive Msg :=
| MConnected (host : string) (port : Z)
| MDisconnected
| MCreating (n batch_size max_workers : Z)
| MSubmitted (submitted n : Z)
| MCompleted (completed n : Z) (elapsed : Time)
| MCreationComplete (t : Time)
| MCreationStats (n : Z) (s : Stats)
| MTestHeader (op : Op) (attempts : Z)
| MAttemptRateLimited (op : Op) (k : Z)
| MAttemptSuccess (op : Op) (k : Z)
| MAttemptFailed (op : Op) (k : Z) (error : value)
| MTestResults (op : Op) (success rate_limited : Z) (failed : option Z)
| MRateLimitVerdict (working : bool)
| MCreatingTestUser
| MSkippingLoginTest
| MSummary (n : Z) (s : Stats)
| MBanner (start : string)
| MPhase1
| MWaiting
| MPhase2
| MSkippingBulk
| MInterrupted
| MError (text : string)
| MTraceback
| MEndTime (t : string).

Definition is_summary (m : Msg) : bool :=
  match m with
  | MSummary _ _ => true
  | _ => false
  end.

(** ** Strings *)

Infix "+++" := String.append (right associativity, at level 60).

Definition ascii_lowercase : string := "abcdefghijklmnopqrstuvwxyz".
Definition ascii_uppercase : string := "ABCDEFGHIJKLMNOPQRSTUVWXYZ".
Definition ascii_letters : string := ascii_lowercase +++ ascii_uppercase.
Definition digits : string := "0123456789".

(** [''.join(cs)] for a list of one-character strings *)
Definition join (cs : list ascii) : string := string_of_list_ascii cs.

(** [str(i)] for an int *)
Definition str_int (i : Z) : string := NilZero.string_of_int (Z.to_int i).

(** [c.lower()] on ASCII *)
Definition lower_ascii (c : ascii) : ascii :=
  let n := nat_of_ascii c in
  if ((65 <=? n) && (n <=? 90))%nat then ascii_of_nat (n + 32) else c.

Fixpoint lower (s : string) : string :=
  match s with
  | EmptyString => EmptyString
  | String c s' => String (lower_ascii c) (lower s')
  end.

(** [register_user] is called with an int ([create_users_batch],
    [test_rate_limiting_login]) and with a string
    ([test_rate_limiting_register]); [format_index] is [f"{index}"]. *)
Inductive Index :=
| IdxInt (i : Z)
| IdxStr (s : string).

Definition format_index (index : Index) : string :=
  match index with
  | IdxInt i => str_int i
  | IdxStr s => s
  end.

(** [range(n)] *)
Definition range (n : Z) : list Z := map Z.of_nat (seq 0 (Z.to_nat n)).

(** ** The world, and programs over it *)

(** The pseudo-random generator: the stream of the values it will draw. *)
Definition Rng := nat -> nat.

Record World (Env : Type) := {
  self : UserLoadTester;
  rng : Rng;
  stdout : list Msg;
  wire : list RpcCall;
  env : Env
}.

Definition set_self {Env} (t : UserLoadTester) (w : World Env) : World Env :=
  {| self := t; rng := rng w; stdout := stdout w; wire := wire w;
     env := env w |}.

Definition set_rng {Env} (g : Rng) (w : World Env) : World Env :=
  {| self := self w; rng := g; stdout := stdout w; wire := wire w;
     env := env w |}.

Definition add_stdout {Env} (m : Msg) (w : World Env) : World Env :=
  {| self := self w; rng := rng w; stdout := stdout w ++ [m];
     wire := wire w; env := env w |}.

Definition add_wire {Env} (c : RpcCall) (w : World Env) : World Env :=
  {| self := self w; rng := rng w; stdout := stdout w;
     wire := wire w ++ [c]; env := env w |}.

Definition set_env {Env} (e : Env) (w : World Env) : World Env :=
  {| self := self w; rng := rng w; stdout := stdout w; wire := wire w;
     env := e |}.

Definition M (Env A : Type) : Type := World Env -> Res A * World Env.

Definition ret {Env A} (a : A) : M Env A := fun w => (Ok a, w).

Definition raise {Env A} (e : exn) : M Env A := fun w => (Raise e, w).

Definition bind {Env A B} (m : M Env A) (k : A -> M Env B) : M Env B :=
  fun w =>
    match m w with
    | (Ok a, w') => k a w'
    | (Raise e, w') => (Raise e, w')
    end.

Notation "x <- m ;; k" := (bind m (fun x => k))
  (at level 61, m at next level, right associativity).
Notation "m ;; k" := (bind m (fun _ => k))
  (at level 61, right associativity).

(** Run [m] and hand back its outcome as a value: what a worker of the pool
    does with a task (the result or the exception is stored in the
    future). *)
Definition attempt {Env A} (m : M Env A) : M Env (Res A) :=
  fun w => let (r, w') := m w in (Ok r, w').

(** [try: m  except grpc.RpcError as e: h e] *)
Definition try_except_RpcError {Env A} (m : M Env A)
  (h : StatusCode -> string -> M Env A) : M Env A :=
  fun w =>
    match m w with
    | (Raise (RpcError code text), w') => h code text w'
    | r => r
    end.

(** [try: m  except KeyboardInterrupt: h1  except Exception as e: h2 e].
    [grpc.RpcError] is a subclass of [Exception]. *)
Definition try_except_main {Env A} (m : M Env A) (h1 : M Env A)
  (h2 : exn -> M Env A) : M Env A :=
  fun w =>
    match m w with
    | (Ok a, w') => (Ok a, w')
    | (Raise KeyboardInterrupt, w') => h1 w'
    | (Raise e, w') => h2 e w'
    end.

(** [try: m  finally: f] *)
Definition try_finally {Env A} (m : M Env A) (f : M Env unit) : M Env A :=
  fun w =>
    let (r, w') := m w in
    match f w' with
    | (Ok _, w'') => (r, w'')
    | (Raise e, w'') => (Raise e, w'')
    end.

(** A [for] loop over [xs] that updates local variables [s]. *)
Fixpoint for_ {Env X S} (xs : list X) (body : X -> S -> M Env S) (s : S)
  : M Env S :=
  match xs with
  | [] => ret s
  | x :: xs' => s' <- body x s ;; for_ xs' body s'
  end.

Definition get_self {Env} : M Env UserLoadTester := fun w => (Ok (self w), w).

Definition modify_self {Env} (f : UserLoadTester -> UserLoadTester)
  : M Env unit :=
  fun w => (Ok tt, set_self (f (self w)) w).

Definition print {Env} (m : Msg) : M Env unit :=
  fun w => (Ok tt, add_stdout m w).

(** [self.stats[c] += 1] *)
Definition bump {Env} (c : Counter) : M Env unit :=
  modify_self (fun t => set_stats (incr c (stats t)) t).

(** [d[k]], which raises [KeyError] when the key is absent *)
Definition getitem {Env} (d : dict) (k : string) : M Env value :=
  match dict_get k d with
  | Some v => ret v
  | None => raise (OtherException "KeyError" k)
  end.

(** A value passed where the protobuf constructor wants a string *)
Definition as_str {Env} (v : value) : M Env string :=
  match v with
  | VStr s => ret s
  | VBool _ => raise (OtherException "TypeError" "bad argument type")
  end.

(** [random.choices(population, k=k)]: each choice is the element at the
    index the generator draws, an index below [len(population)]. *)
Fixpoint choices (population : list ascii) (k : nat) (g : Rng)
  : list ascii * Rng :=
  match k with
  | O => ([], g)
  | S k' =>
      let c := nth (g O mod List.length population)%nat population zero in
      let (cs, g') := choices population k' (fun n => g (S n)) in
      (c :: cs, g')
  end.

Definition random_choices {Env} (population : string) (k : nat)
  : M Env (list ascii) :=
  fun w =>
    let (cs, g) := choices (list_ascii_of_string population) k (rng w) in
    (Ok cs, set_rng g w).

(** What [input] can do: return the line typed, or raise [EOFError] or
    [KeyboardInterrupt]. *)
Inductive InputResult :=
| Line (s : string)
| EndOfFile
| InputInterrupted.

(** ** Vocabulary of the statements *)

(** The attempts counted for an operation: [success + failed +
    rate_limited]. *)
Definition success_counter (op : Op) : Counter :=
  match op with OpRegister => Register_success | OpLogin => Login_success end.

Definition failed_counter (op : Op) : Counter :=
  match op with OpRegister => Register_failed | OpLogin => Login_failed end.

Definition rate_limited_counter (op : Op) : Counter :=
  match op with
  | OpRegister => Register_rate_limited
  | OpLogin => Login_rate_limited
  end.

Definition op_total (op : Op) (s : Stats) : Z :=
  count (success_counter op) s + count (failed_counter op) s
  + count (rate_limited_counter op) s.

(** No counter of [s'] is below its value in [s]. *)
Definition stats_le (s s' : Stats) : Prop :=
  forall c, count c s <= count c s'.

(** The stub is there: [connect] has run. *)
Definition connected (t : UserLoadTester) : bool :=
  match stub t with
  | Some _ => true
  | None => false
  end.

(** The request [register_user index] builds when the generator is [g],
    and the generator after the 6 + 12 draws. *)
Definition register_request (index : Index) (g : Rng)
  : RegisterRequest * Rng :=
  let (random_suffix, g1) :=
    choices (list_ascii_of_string (ascii_lowercase +++ digits)) 6 g in
  let (cs, g2) :=
    choices (list_ascii_of_string (ascii_letters +++ digits +++ "!@#$%"))
      12 g1 in
  ({| req_email := "user" +++ format_index index +++ "_"
                   +++ join random_suffix +++ "@loadtest.com";
      req_password := join cs;
      req_username := "user" +++ format_index index |}, g2).

(** The three shapes of the records [register_user] and [login_user]
    return. *)
Definition registered (request : RegisterRequest) (response : RegisterResponse)
  : dict :=
  [("success", VBool true);
   ("email", VStr (req_email request));
   ("password", VStr (req_password request));
   ("username", VStr (req_username request));
   ("user_id", VStr (id (user response)))].

Definition logged_in (response : LoginResponse) : dict :=
  [("success", VBool true); ("token", VStr (access_token response))].

Definition refused (rate_limited : bool) (text : string) : dict :=
  [("success", VBool false); ("rate_limited", VBool rate_limited);
   ("error", VStr text)].

(** An entry of [created_users] as the script reads it later: marked as a
    success, with a non-empty email and a password of 12 characters, and
    with the identifier the service gave. *)
Definition usable_entry (d : dict) : Prop :=
  dict_get "success" d = Some (VBool true) /\
  exists email password user_id,
    dict_get "email" d = Some (VStr email) /\ email <> "" /\
    dict_get "password" d = Some (VStr password) /\
    String.length password = 12%nat /\
    dict_get "user_id" d = Some (VStr user_id).

(** A call of one of the two operations. *)
Inductive Call :=
| RegisterUser (index : Index)
| LoginUser (email password : string).

Definition op_of (c : Call) : Op :=
  match c with
  | RegisterUser _ => OpRegister
  | LoginUser _ _ => OpLogin
  end.

Definition is_op (op : Op) (c : Call) : bool :=
  match op, op_of c with
  | OpRegister, OpRegister | OpLogin, OpLogin => true
  | _, _ => false
  end.

(** A client that makes the calls [ms] one after the other, and goes on
    after a call that raised (as the worker pool does with its tasks). *)
Fixpoint call_each {Env A} (ms : list (M Env A)) (w : World Env)
  : list (Res A) * World Env :=
  match ms with
  | [] => ([], w)
  | m :: ms' =>
      let (r, w1) := m w in
      let (rs, w2) := call_each ms' w1 in
      (r :: rs, w2)
  end.

Definition is_ok {A} (r : Res A) : bool :=
  match r with
  | Ok _ => true
  | Raise _ => false
  end.

(** How many of the calls returned. *)
Definition returned {A} (rs : list (Res A)) : Z :=
  Z.of_nat (List.length (filter is_ok rs)).

(** No counter went down between [t] and [t']. *)
Definition counters_grow (t t' : UserLoadTester) : Prop :=
  stats_le (stats t) (stats t').

(** An outcome that is not an RPC error. *)
Definition not_rpc {A} (r : Res A) : Prop :=
  forall code text, r <> Raise (RpcError code text).

(** Relations between the tester before and after. *)
Definition same_channel (t t' : UserLoadTester) : Prop :=
  channel t' = channel t.

(** [t'] has the entries of [t], then one usable entry for each success
    counted between [t] and [t']. *)
Definition successes_recorded (t t' : UserLoadTester) : Prop :=
  exists added,
    created_users t' = created_users t ++ added /\
    Z.of_nat (List.length added)
    = register_success (stats t') - register_success (stats t) /\
    Forall usable_entry added.

Definition same_tester (t t' : UserLoadTester) : Prop := t' = t.

Definition same_created_users (t t' : UserLoadTester) : Prop :=
  created_users t' = created_users t.

(** [self.channel] and [self.stub] are what they were. *)
Definition same_connection (t t' : UserLoadTester) : Prop :=
  channel t' = channel t /\ stub t' = stub t.

(** The usernames of the Register requests among [cs], in order. *)
Definition usernames_sent (cs : list RpcCall) : list string :=
  flat_map (fun c => match c with
                     | CallRegister request _ => [req_username request]
                     | CallLogin _ _ => []
                     end) cs.

(** [created_users] has grown by usable entries, no more of them than
    successes were counted. *)
Definition successes_cover_created (t t' : UserLoadTester) : Prop :=
  exists added,
    created_users t' = created_users t ++ added /\
    Z.of_nat (List.length added)
    <= register_success (stats t') - register_success (stats t) /\
    Forall usable_entry added.

(** A program never raises an RPC error. *)
Definition no_rpc_error {Env A} (m : M Env A) : Prop :=
  forall w code text, fst (m w) <> Raise (RpcError code text).

(** Whatever a program does, the tester before and after are related by
    [P]. *)
Definition always {Env A} (P : UserLoadTester -> UserLoadTester -> Prop)
  (m : M Env A) : Prop :=
  forall w, P (self w) (self (snd (m w))).

(** ** A scripted outside, for running the script on examples

    The remote service answers the [k]-th Register call with
    [on_register k] and the [k]-th Login call with [on_login k]; the clock
    advances by one at each reading and by the length of each sleep; the
    user types [typed]; the futures finish in the order of submission. *)

Module Mock.

Record Env := {
  on_register : nat -> RegisterRequest -> Res RegisterResponse;
  on_login : nat -> LoginRequest -> Res LoginResponse;
  typed : InputResult;
  registers : nat;
  logins : nat;
  clock : Time
}.

Definition Register (request : RegisterRequest) (t : option Z) (e : Env)
  : Res RegisterResponse * Env :=
  (on_register e (S (registers e)) request,
   {| on_register := on_register e; on_login := on_login e;
      typed := typed e; registers := S (registers e); logins := logins e;
      clock := clock e |}).

Definition Login (request : LoginRequest) (t : option Z) (e : Env)
  : Res LoginResponse * Env :=
  (on_login e (S (logins e)) request,
   {| on_register := on_register e; on_login := on_login e;
      typed := typed e; registers := registers e; logins := S (logins e);
      clock := clock e |}).

Definition advance (d : Time) (e : Env) : Env :=
  {| on_register := on_register e; on_login := on_login e;
     typed := typed e; registers := registers e; logins := logins e;
     clock := clock e + d |}.

Definition time (e : Env) : Time * Env := (clock e, advance 1 e).
Definition now (e : Env) : string * Env := (str_int (clock e), e).
Definition sleep (d : Time) (e : Env) : bool * Env := (false, advance d e).
Definition input (prompt : string) (e : Env) : InputResult * Env :=
  (typed e, e).
Definition next (n : nat) (e : Env) : option nat * Env := (Some O, e).

(** Answers of the service. *)
Definition accept (k : nat) (request : RegisterRequest)
  : Res RegisterResponse :=
  Ok {| user := {| id := "id" +++ str_int (Z.of_nat k) |} |}.

Definition every_fourth (k : nat) (request : RegisterRequest)
  : Res RegisterResponse :=
  if (k mod 4 =? 0)%nat then
    Raise (RpcError RESOURCE_EXHAUSTED "rate limit exceeded")
  else accept k request.

Definition no_id (k : nat) (request : RegisterRequest)
  : Res RegisterResponse :=
  Ok {| user := {| id := "" |} |}.

Definition closed (k : nat) (request : RegisterRequest)
  : Res RegisterResponse :=
  Raise (OtherException "ValueError" "Cannot invoke RPC on closed channel!").

Definition unavailable (k : nat) (request : RegisterRequest)
  : Res RegisterResponse :=
  Raise (RpcError UNAVAILABLE "failed to connect to all addresses").

Definition token (k : nat) (request : LoginRequest) : Res LoginResponse :=
  Ok {| access_token := "token" +++ str_int (Z.of_nat k) |}.

Definition throttled (k : nat) (request : LoginRequest)
  : Res LoginResponse :=
  Raise (RpcError RESOURCE_EXHAUSTED "rate limit exceeded").

Definition outside (r : nat -> RegisterRequest -> Res RegisterResponse)
  (l : nat -> LoginRequest -> Res LoginResponse) (answer : InputResult)
  : Env :=
  {| on_register := r; on_login := l; typed := answer;
     registers := O; logins := O; clock := 0 |}.

(** A service that keeps nothing but the number of Register calls it has
    answered, and refuses every fourth. *)
Definition fourth_Register (request : RegisterRequest) (t : option Z)
  (n : nat) : Res RegisterResponse * nat :=
  (every_fourth (S n) request, S n).

(** A world whose tester is [t], whose generator draws 0, 1, 2, ... and
    where nothing was printed or sent yet. *)
Definition world {E} (t : UserLoadTester) (e : E) : World E :=
  {| self := t; rng := fun n => n; stdout := []; wire := []; env := e |}.

(** An entry of [created_users], as a batch records it. *)
Definition recorded_user : dict :=
  [("success", VBool true);
   ("email", VStr "user0_abcdef@loadtest.com");
   ("password", VStr "ghijklmnopqr");
   ("username", VStr "user0");
   ("user_id", VStr "id1")].

(** A tester as [connect] leaves it. *)
Definition tester (n : Z) : UserLoadTester :=
  let ch := {| target := "localhost:50051" |} in
  set_connection (Some ch) (Some {| stub_channel := ch |})
    (init "localhost" 50051 n).

End Mock.

(** ** The script

    The outside of the process is a state [Env] and seven oracles on it.
    - [remote_Register], [remote_Login]: what the remote service (and the
      gRPC library in front of it) answers to a call; any exception is
      possible.
    - [clock_time] is [time.time()], [clock_now] is the formatted
      [datetime.now()], [clock_sleep] is [time.sleep] and says whether the
      sleep was cut by Ctrl-C.
    - [terminal_input] is [input].
    - [pool_next n] is the thread pool and [as_completed]: among [n]
      unfinished futures, which one finishes next, or [None] when the wait
      is cut by Ctrl-C. *)

Section Harness.

Variable Env : Type.
Variable remote_Register :
  RegisterRequest -> option Z -> Env -> Res RegisterResponse * Env.
Variable remote_Login :
  LoginRequest -> option Z -> Env -> Res LoginResponse * Env.
Variable clock_time : Env -> Time * Env.
Variable clock_now : Env -> string * Env.
Variable clock_sleep : Time -> Env -> bool * Env.
Variable terminal_input : string -> Env -> InputResult * Env.
Variable pool_next : nat -> Env -> option nat * Env.

Local Abbreviation M := (M Env).
Local Abbreviation World := (World Env).

(** *** Calls to the outside *)

(** [self.stub.Register(request, timeout=t)].  Before [connect],
    [self.stub] is [None] and the attribute access raises. *)
Definition stub_Register (request : RegisterRequest) (t : option Z)
  : M RegisterResponse :=
  fun w =>
    match stub (self w) with
    | None =>
        (Raise (OtherException "AttributeError"
                  "'NoneType' object has no attribute 'Register'"), w)
    | Some _ =>
        let (r, e) := remote_Register request t (env w) in
        (r, set_env e (add_wire (CallRegister request t) w))
    end.

(** [self.stub.Login(request, timeout=t)] *)
Definition stub_Login (request : LoginRequest) (t : option Z)
  : M LoginResponse :=
  fun w =>
    match stub (self w) with
    | None =>
        (Raise (OtherException "AttributeError"
                  "'NoneType' object has no attribute 'Login'"), w)
    | Some _ =>
        let (r, e) := remote_Login request t (env w) in
        (r, set_env e (add_wire (CallLogin request t) w))
    end.

Definition time_time : M Time :=
  fun w => let (t, e) := clock_time (env w) in (Ok t, set_env e w).

Definition datetime_now : M string :=
  fun w => let (t, e) := clock_now (env w) in (Ok t, set_env e w).

Definition time_sleep (d : Time) : M unit :=
  fun w =>
    let (interrupted, e) := clock_sleep d (env w) in
    (if interrupted then Raise KeyboardInterrupt else Ok tt, set_env e w).

Definition input (prompt : string) : M string :=
  fun w =>
    let (r, e) := terminal_input prompt (env w) in
    (match r with
     | Line s => Ok s
     | EndOfFile => Raise (OtherException "EOFError" "EOF when reading a line")
     | InputInterrupted => Raise KeyboardInterrupt
     end, set_env e w).

Definition next_completed (n : nat) : M nat :=
  fun w =>
    let (r, e) := pool_next n (env w) in
    (match r with
     | Some k => Ok k
     | None => Raise KeyboardInterrupt
     end, set_env e w).

(** [a / b] on floats, of which only the failure is kept *)
Definition check_division (b : Time) : M unit :=
  if b =? 0 then raise (OtherException "ZeroDivisionError" "float division by zero")
  else ret tt.

(** *** [connect], [disconnect] *)

Definition connect : M unit :=
  t <- get_self ;;
  let ch := {| target := grpc_host t +++ ":" +++ str_int (grpc_port t) |} in
  modify_self (set_connection (Some ch) (Some {| stub_channel := ch |})) ;;
  print (MConnected (grpc_host t) (grpc_port t)).

Definition disconnect : M unit :=
  t <- get_self ;;
  match channel t with
  | Some _ => print MDisconnected
  | None => ret tt
  end.

(** *** [generate_random_email], [generate_random_password] *)

Definition generate_random_email (index : Index) : M string :=
  random_suffix <- random_choices (ascii_lowercase +++ digits) 6 ;;
  ret ("user" +++ format_index index +++ "_" +++ join random_suffix
       +++ "@loadtest.com").

Definition generate_random_password : M string :=
  cs <- random_choices (ascii_letters +++ digits +++ "!@#$%") 12 ;;
  ret (join cs).

(** *** [register_user], [login_user] *)

Definition register_user (index : Index) : M dict :=
  email <- generate_random_email index ;;
  password <- generate_random_password ;;
  let username := "user" +++ format_index index in
  try_except_RpcError
    (let request := {| req_email := email;
                       req_password := password;
                       req_username := username |} in
     response <- stub_Register request (Some 10) ;;
     bump Register_success ;;
     ret [("success", VBool true);
          ("email", VStr email);
          ("password", VStr password);
          ("username", VStr username);
          ("user_id", VStr (id (user response)))])
    (fun code text =>
       if code_eqb code RESOURCE_EXHAUSTED then
         bump Register_rate_limited ;;
         ret [("success", VBool false); ("rate_limited", VBool true);
              ("error", VStr text)]
       else
         bump Register_failed ;;
         ret [("success", VBool false); ("rate_limited", VBool false);
              ("error", VStr text)]).

Definition login_user (email password : string) : M dict :=
  try_except_RpcError
    (let request := {| login_email := email;
                       login_password := password |} in
     response <- stub_Login request (Some 10) ;;
     bump Login_success ;;
     ret [("success", VBool true);
          ("token", VStr (access_token response))])
    (fun code text =>
       if code_eqb code RESOURCE_EXHAUSTED then
         bump Login_rate_limited ;;
         ret [("success", VBool false); ("rate_limited", VBool true);
              ("error", VStr text)]
       else
         bump Login_failed ;;
         ret [("success", VBool false); ("rate_limited", VBool false);
              ("error", VStr text)]).

(** *** [create_users_batch]

    A future is the index its task was submitted with.  The pool runs the
    task of the future that [pool_next] says finishes next; the worker keeps
    the result or the exception of the task in the future, and
    [future.result()] hands it out or raises it again.  When the body of
    the [with] block is left by an exception, [shutdown(wait=True)] lets
    the tasks still in the queue run before the exception goes on. *)

(** [future.result()] *)
Definition future_result (outcome : Res dict) : M dict :=
  match outcome with
  | Ok result => ret result
  | Raise e => raise e
  end.

(** [executor.__exit__]: the tasks not yet finished run to their end, in
    the order of the queue; nobody looks at their results. *)
Definition shutdown (pending : list Z) : M unit :=
  for_ pending (fun i _ => attempt (register_user (IdxInt i)) ;; ret tt) tt.

(** The loop [for i in range(self.num_users)] that submits the tasks. *)
Definition submit_all (n : Z) : M (list Z) :=
  for_ (range n)
    (fun i futures =>
       (if (i + 1) mod 1000 =? 0 then print (MSubmitted (i + 1) n)
        else ret tt) ;;
       ret (futures ++ [i]))
    [].

(** One turn of [for i, future in enumerate(as_completed(futures))], after
    the future has finished with [outcome]. *)
Definition collect_one (n : Z) (start_time : Time) (i : Z)
  (outcome : Res dict) : M unit :=
  result <- future_result outcome ;;
  success <- getitem result "success" ;;
  (if truthy (Some success) then
     modify_self
       (fun t => set_created_users (created_users t ++ [result]) t)
   else ret tt) ;;
  if (i + 1) mod 1000 =? 0 then
    now <- time_time ;;
    let elapsed := now - start_time in
    check_division elapsed ;;
    print (MCompleted (i + 1) n elapsed)
  else ret tt.

(** The loop over [as_completed(futures)]; [fuel] is the number of futures
    still to finish. *)
Fixpoint collect (fuel : nat) (n : Z) (start_time : Time)
  (pending : list Z) (i : Z) : M unit :=
  match fuel, pending with
  | S fuel', _ :: _ =>
      waited <- attempt (next_completed (List.length pending)) ;;
      match waited with
      | Raise e => shutdown pending ;; raise e
      | Ok k =>
          let pos := (k mod List.length pending)%nat in
          let pending' := firstn pos pending ++ skipn (S pos) pending in
          outcome <- attempt (register_user (IdxInt (nth pos pending 0))) ;;
          turn <- attempt (collect_one n start_time i outcome) ;;
          match turn with
          | Raise e => shutdown pending' ;; raise e
          | Ok _ => collect fuel' n start_time pending' (i + 1)
          end
      end
  | _, _ => ret tt
  end.

Definition create_users_batch (batch_size max_workers : Z) : M unit :=
  t <- get_self ;;
  let n := num_users t in
  print (MCreating n batch_size max_workers) ;;
  start_time <- time_time ;;
  futures <- submit_all n ;;
  collect (List.length futures) n start_time futures 0 ;;
  now <- time_time ;;
  modify_self
    (fun t => set_stats (set_total_time (now - start_time) (stats t)) t) ;;
  t <- get_self ;;
  print (MCreationComplete (total_time (stats t))) ;;
  check_division (total_time (stats t)) ;;
  print (MCreationStats n (stats t)).

(** *** [test_rate_limiting_register], [test_rate_limiting_login] *)

(** [result.get('error', 'Unknown error')] *)
Definition error_of (result : dict) : value :=
  match dict_get "error" result with
  | Some v => v
  | None => VStr "Unknown error"
  end.

Definition test_rate_limiting_register (attempts : Z) : M unit :=
  print (MTestHeader OpRegister attempts) ;;
  counts <-
    for_ (range attempts)
      (fun i '(rate_limited_count, success_count) =>
         result <- register_user (IdxStr ("ratelimit_test_" +++ str_int i)) ;;
         counts <-
           (if truthy (dict_get "rate_limited" result) then
              print (MAttemptRateLimited OpRegister (i + 1)) ;;
              ret (rate_limited_count + 1, success_count)
            else
              success <- getitem result "success" ;;
              if truthy (Some success) then
                print (MAttemptSuccess OpRegister (i + 1)) ;;
                ret (rate_limited_count, success_count + 1)
              else
                print (MAttemptFailed OpRegister (i + 1) (error_of result)) ;;
                ret (rate_limited_count, success_count)) ;;
         time_sleep 100 ;;
         ret counts)
      (0, 0) ;;
  let '(rate_limited_count, success_count) := counts in
  print (MTestResults OpRegister success_count rate_limited_count None) ;;
  print (MRateLimitVerdict (0 <? rate_limited_count)).

(** The loop of [test_rate_limiting_login], once [test_user] is chosen. *)
Definition login_attempts (test_user : dict) (attempts : Z) : M unit :=
  counts <-
    for_ (range attempts)
      (fun i '(rate_limited_count, success_count, failed_count) =>
         email <- getitem test_user "email" ;;
         password <- getitem test_user "password" ;;
         email <- as_str email ;;
         password <- as_str password ;;
         result <- login_user email password ;;
         counts <-
           (if truthy (dict_get "rate_limited" result) then
              print (MAttemptRateLimited OpLogin (i + 1)) ;;
              ret (rate_limited_count + 1, success_count, failed_count)
            else
              success <- getitem result "success" ;;
              if truthy (Some success) then
                print (MAttemptSuccess OpLogin (i + 1)) ;;
                ret (rate_limited_count, success_count + 1, failed_count)
              else
                print (MAttemptFailed OpLogin (i + 1) (error_of result)) ;;
                ret (rate_limited_count, success_count, failed_count + 1)) ;;
         time_sleep 100 ;;
         ret counts)
      (0, 0, 0) ;;
  let '(rate_limited_count, success_count, failed_count) := counts in
  print (MTestResults OpLogin success_count rate_limited_count
           (Some failed_count)) ;;
  print (MRateLimitVerdict (0 <? rate_limited_count)).

Definition test_rate_limiting_login (attempts : Z) : M unit :=
  print (MTestHeader OpLogin attempts) ;;
  t <- get_self ;;
  match created_users t with
  | test_user :: _ => login_attempts test_user attempts
  | [] =>
      print MCreatingTestUser ;;
      test_user <- register_user (IdxInt 999999) ;;
      success <- getitem test_user "success" ;;
      if negb (truthy (Some success)) then print MSkippingLoginTest
      else login_attempts test_user attempts
  end.

(** *** [print_summary], [main] *)

Definition print_summary : M unit :=
  t <- get_self ;;
  print (MSummary (num_users t) (stats t)).

Definition GRPC_HOST : string := "localhost".
Definition GRPC_PORT : Z := 50051.
Definition NUM_USERS : Z := 10000.
Definition BATCH_SIZE : Z := 100.
Definition MAX_WORKERS : Z := 20.

(** [user_input.lower() in ['yes', 'y']] *)
Definition says_yes (user_input : string) : bool :=
  String.eqb (lower user_input) "yes" || String.eqb (lower user_input) "y".

(** The body of the [try] of [main]. *)
Definition main_body : M unit :=
  connect ;;
  print MPhase1 ;;
  test_rate_limiting_register 10 ;;
  print MWaiting ;;
  time_sleep 2000 ;;
  test_rate_limiting_login 10 ;;
  print MPhase2 ;;
  user_input <- input ("Proceed with creating " +++ str_int NUM_USERS
                       +++ " users? (yes/no): ") ;;
  (if says_yes user_input then create_users_batch BATCH_SIZE MAX_WORKERS
   else print MSkippingBulk) ;;
  print_summary.

Definition main : M unit :=
  start <- datetime_now ;;
  print (MBanner start) ;;
  modify_self (fun _ => init GRPC_HOST GRPC_PORT NUM_USERS) ;;
  try_finally
    (try_except_main main_body
       (print MInterrupted ;; print_summary)
       (fun e => print (MError (str e)) ;; print MTraceback))
    (disconnect ;;
     finish <- datetime_now ;;
     print (MEndTime finish)).

(** *** The two operations, taken together *)

Definition perform (c : Call) : M dict :=
  match c with
  | RegisterUser index => register_user index
  | LoginUser email password => login_user email password
  end.

(** What the remote call of [c] does when [c] is made in [w]: it returns
    ([Ok]) or raises. *)
Definition remote_answer (c : Call) (w : World) : Res unit :=
  match c with
  | RegisterUser index =>
      let request := fst (register_request index (rng w)) in
      match fst (remote_Register request (Some 10) (env w)) with
      | Ok _ => Ok tt
      | Raise e => Raise e
      end
  | LoginUser email password =>
      let request := {| login_email := email; login_password := password |} in
      match fst (remote_Login request (Some 10) (env w)) with
      | Ok _ => Ok tt
      | Raise e => Raise e
      end
  end.

(** The world after [register_user] or [login_user] has counted [c]. *)
Definition counted (c : Counter) (w : World) : World :=
  set_self (set_stats (incr c (stats (self w))) (self w)) w.

(** The world in which the [try] of [main] starts: the banner is printed
    and the tester is built. *)
Definition main_entry (w : World) : World :=
  let (start, e) := clock_now (env w) in
  set_self (init GRPC_HOST GRPC_PORT NUM_USERS)
    (add_stdout (MBanner start) (set_env e w)).

(** The [try] statement of [main]: body, handlers and [finally]. *)
Definition main_try : M unit :=
  try_finally
    (try_except_main main_body
       (print MInterrupted ;; print_summary)
       (fun e => print (MError (str e)) ;; print MTraceback))
    (disconnect ;;
     finish <- datetime_now ;;
     print (MEndTime finish)).

(** A program that does not touch the tester. *)
Definition unchanged {A} (m : M A) : Prop :=
  forall w, self (snd (m w)) = self w.

(** ** Facts *)

Unset Implicit Arguments.

(** *** The counters *)

Lemma count_incr_same c s : count c (incr c s) = count c s + 1.
Proof. destruct c; reflexivity. Qed.

Lemma count_incr_other c c' s : c <> c' -> count c' (incr c s) = count c' s.
Proof. destruct c, c'; intros H; try reflexivity; congruence. Qed.

Lemma total_time_incr c s : total_time (incr c s) = total_time s.
Proof. destruct c; reflexivity. Qed.

Lemma stats_le_refl s : stats_le s s.
Proof. intros c; lia. Qed.

Lemma stats_le_trans s1 s2 s3 :
  stats_le s1 s2 -> stats_le s2 s3 -> stats_le s1 s3.
Proof. intros H12 H23 c; specialize (H12 c); specialize (H23 c); lia. Qed.

Lemma stats_le_incr c s : stats_le s (incr c s).
Proof.
  intros c'; destruct c, c'; simpl; lia.
Qed.

Lemma stats_le_set_total_time t s : stats_le s (set_total_time t s).
Proof. intros c; destruct c; simpl; lia. Qed.

Lemma op_total_incr op c s :
  op_total op (incr c s) =
  op_total op s
  + (if match op, c with
        | OpRegister, (Register_success | Register_failed
                      | Register_rate_limited) => true
        | OpLogin, (Login_success | Login_failed | Login_rate_limited) => true
        | _, _ => false
        end then 1 else 0).
Proof. destruct op, c; unfold op_total; simpl; lia. Qed.

Lemma code_eqb_eq a b : code_eqb a b = true <-> a = b.
Proof. destruct a, b; simpl; split; intros H; congruence. Qed.

(** *** [register_user] and [login_user], case by case *)

Lemma register_user_eq index w :
  register_user index w =
  let (request, g) := register_request index (rng w) in
  let w1 := set_rng g w in
  match stub (self w) with
  | None =>
      (Raise (OtherException "AttributeError"
                "'NoneType' object has no attribute 'Register'"), w1)
  | Some _ =>
      let (r, e) := remote_Register request (Some 10) (env w) in
      let w2 := set_env e (add_wire (CallRegister request (Some 10)) w1) in
      match r with
      | Ok response =>
          (Ok (registered request response), counted Register_success w2)
      | Raise (RpcError code text) =>
          if code_eqb code RESOURCE_EXHAUSTED
          then (Ok (refused true text), counted Register_rate_limited w2)
          else (Ok (refused false text), counted Register_failed w2)
      | Raise e' => (Raise e', w2)
      end
  end.
Proof.
  unfold register_user, register_request, generate_random_email,
    generate_random_password, random_choices, try_except_RpcError,
    stub_Register, bump, modify_self, counted, bind, ret.
  destruct (choices _ 6 (rng w)) as [suffix g1]; cbn [rng set_rng].
  destruct (choices _ 12 g1) as [cs g2]; cbn [self set_rng env].
  destruct (stub (self w)); [|reflexivity].
  destruct (remote_Register _ _ _) as [[response|[code text| |class text]] e];
    try reflexivity.
  destruct (code_eqb code RESOURCE_EXHAUSTED); reflexivity.
Qed.

Lemma login_user_eq email password w :
  login_user email password w =
  let request := {| login_email := email; login_password := password |} in
  match stub (self w) with
  | None =>
      (Raise (OtherException "AttributeError"
                "'NoneType' object has no attribute 'Login'"), w)
  | Some _ =>
      let (r, e) := remote_Login request (Some 10) (env w) in
      let w2 := set_env e (add_wire (CallLogin request (Some 10)) w) in
      match r with
      | Ok response => (Ok (logged_in response), counted Login_success w2)
      | Raise (RpcError code text) =>
          if code_eqb code RESOURCE_EXHAUSTED
          then (Ok (refused true text), counted Login_rate_limited w2)
          else (Ok (refused false text), counted Login_failed w2)
      | Raise e' => (Raise e', w2)
      end
  end.
Proof.
  unfold login_user, try_except_RpcError, stub_Login, bump, modify_self,
    counted, bind, ret.
  destruct (stub (self w)); [|reflexivity].
  destruct (remote_Login _ _ _) as [[response|[code text| |class text]] e];
    try reflexivity.
  destruct (code_eqb code RESOURCE_EXHAUSTED); reflexivity.
Qed.

(** A call made through a connected stub sends one request, with a
    timeout of 10 seconds, and then either counts itself once and returns
    a record, or is left by the exception of the remote call, which is not
    an RPC error, with the tester as it was. *)
Lemma perform_cases c w :
  connected (self w) = true ->
  exists w2 sent,
    self w2 = self w /\ stdout w2 = stdout w /\
    wire w2 = wire w ++ [sent] /\ call_timeout sent = Some 10 /\
    match remote_answer c w with
    | Ok _ =>
        exists d, perform c w = (Ok d, counted (success_counter (op_of c)) w2)
                  /\ dict_get "success" d = Some (VBool true)
    | Raise (RpcError code text) =>
        if code_eqb code RESOURCE_EXHAUSTED
        then perform c w =
             (Ok (refused true text),
              counted (rate_limited_counter (op_of c)) w2)
        else perform c w =
             (Ok (refused false text), counted (failed_counter (op_of c)) w2)
    | Raise e => perform c w = (Raise e, w2)
    end.
Proof.
  unfold connected; intros Hc.
  destruct c as [index|email password]; unfold perform, remote_answer.
  - rewrite register_user_eq.
    destruct (register_request index (rng w)) as [request g]; cbn [fst].
    destruct (stub (self w)); [|discriminate].
    destruct (remote_Register request (Some 10) (env w)) as [r e] eqn:Hr.
    exists (set_env e (add_wire (CallRegister request (Some 10))
                         (set_rng g w))), (CallRegister request (Some 10)).
    repeat (split; [reflexivity|]); cbn [fst].
    destruct r as [response|[code text| |class text]]; try reflexivity.
    + eexists; split; reflexivity.
    + destruct (code_eqb code RESOURCE_EXHAUSTED); reflexivity.
  - rewrite login_user_eq; cbv zeta.
    destruct (stub (self w)); [|discriminate].
    destruct (remote_Login _ (Some 10) (env w)) as [r e] eqn:Hr.
    exists (set_env e (add_wire (CallLogin
              {| login_email := email; login_password := password |}
              (Some 10)) w)),
      (CallLogin {| login_email := email; login_password := password |}
         (Some 10)).
    repeat (split; [reflexivity|]); cbn [fst].
    destruct r as [response|[code text| |class text]]; try reflexivity.
    + eexists; split; reflexivity.
    + destruct (code_eqb code RESOURCE_EXHAUSTED); reflexivity.
Qed.

(** *** Claims about one call *)

(** C1.  When the remote call of [register_user] or [login_user] raises an
    RPC error, there are two cases only.  With the status code
    RESOURCE_EXHAUSTED the rate-limited counter of the operation goes up by
    one and the record returned is [success = False, rate_limited = True];
    with any other status code the failed counter of the operation goes up
    by one and the record is [success = False, rate_limited = False].  In
    both cases the record carries [str(e)] as it is under [error]. *)
Theorem rpc_error_classified c w code text :
  connected (self w) = true ->
  remote_answer c w = Raise (RpcError code text) ->
  let s := stats (self w) in
  let s' := stats (self (snd (perform c w))) in
  (code = RESOURCE_EXHAUSTED ->
   fst (perform c w) =
     Ok [("success", VBool false); ("rate_limited", VBool true);
         ("error", VStr text)] /\
   count (rate_limited_counter (op_of c)) s'
   = count (rate_limited_counter (op_of c)) s + 1 /\
   count (failed_counter (op_of c)) s' = count (failed_counter (op_of c)) s)
  /\
  (code <> RESOURCE_EXHAUSTED ->
   fst (perform c w) =
     Ok [("success", VBool false); ("rate_limited", VBool false);
         ("error", VStr text)] /\
   count (failed_counter (op_of c)) s'
   = count (failed_counter (op_of c)) s + 1 /\
   count (rate_limited_counter (op_of c)) s'
   = count (rate_limited_counter (op_of c)) s).
Proof.
  intros Hc Hr.
  destruct (perform_cases c w Hc) as (w2 & sent & Hself & _ & _ & _ & H).
  rewrite Hr in H. cbv zeta.
  destruct (code_eqb code RESOURCE_EXHAUSTED) eqn:E; rewrite H;
    cbn [fst snd counted self set_self stats set_stats]; rewrite Hself.
  - apply code_eqb_eq in E. split; [intros _|congruence].
    split; [reflexivity|]. split; [apply count_incr_same|].
    apply count_incr_other. destruct (op_of c); discriminate.
  - split; [intros ->; discriminate|intros _].
    split; [reflexivity|]. split; [apply count_incr_same|].
    apply count_incr_other. destruct (op_of c); discriminate.
Qed.

(** C8.  When the Register call returns, [register_user] returns a record
    with [success = True] that holds the email, the password and the
    username of the request that was sent, and under [user_id] the
    identifier [response.user.id] of the user record that came back. *)
Theorem register_user_returns_record index w request g response e :
  connected (self w) = true ->
  register_request index (rng w) = (request, g) ->
  remote_Register request (Some 10) (env w) = (Ok response, e) ->
  fst (register_user index w) =
    Ok [("success", VBool true);
        ("email", VStr (req_email request));
        ("password", VStr (req_password request));
        ("username", VStr (req_username request));
        ("user_id", VStr (id (user response)))] /\
  wire (snd (register_user index w))
  = wire w ++ [CallRegister request (Some 10)] /\
  Ok (req_email request) = fst (generate_random_email index w) /\
  Ok (req_password request)
  = fst (generate_random_password (snd (generate_random_email index w))) /\
  req_username request = "user" +++ format_index index.
Proof.
  unfold connected; intros Hc Hq Hr.
  rewrite register_user_eq, Hq; cbv zeta.
  destruct (stub (self w)); [|discriminate].
  rewrite Hr; cbn [fst snd].
  split; [reflexivity|]. split; [reflexivity|].
  revert Hq.
  unfold register_request, generate_random_email, generate_random_password,
    random_choices, bind, ret.
  destruct (choices _ 6 (rng w)) as [suffix g1]; cbn [rng set_rng fst snd].
  destruct (choices _ 12 g1) as [cs g2]; cbn [fst snd].
  intros [= <- _]. repeat split.
Qed.

(** C9.  A call of [register_user] or [login_user] that completes (the
    remote call returns or raises an RPC error) adds one to exactly one of
    the six counters, a counter of its own operation, and leaves the other
    five, [total_time] and [created_users] as they were. *)
Theorem completed_call_counts_once c w :
  connected (self w) = true ->
  (remote_answer c w = Ok tt \/
   exists code text, remote_answer c w = Raise (RpcError code text)) ->
  let t := self w in
  let t' := self (snd (perform c w)) in
  exists k,
    In k [success_counter (op_of c); failed_counter (op_of c);
          rate_limited_counter (op_of c)] /\
    count k (stats t') = count k (stats t) + 1 /\
    (forall k', k' <> k -> count k' (stats t') = count k' (stats t)) /\
    total_time (stats t') = total_time (stats t) /\
    created_users t' = created_users t.
Proof.
  intros Hc Hr.
  destruct (perform_cases c w Hc) as (w2 & sent & Hself & _ & _ & _ & H).
  cbv zeta.
  assert (Hk : forall k r,
             perform c w = (r, counted k w2) ->
             count k (stats (self (snd (perform c w))))
             = count k (stats (self w)) + 1 /\
             (forall k', k' <> k ->
                count k' (stats (self (snd (perform c w))))
                = count k' (stats (self w))) /\
             total_time (stats (self (snd (perform c w))))
             = total_time (stats (self w)) /\
             created_users (self (snd (perform c w)))
             = created_users (self w)).
  { intros k r ->.
    cbn [snd counted self set_self stats set_stats created_users].
    rewrite Hself. split; [apply count_incr_same|].
    split; [intros k' Hk'; now apply count_incr_other|].
    split; [apply total_time_incr|reflexivity]. }
  destruct Hr as [Hr|(code & text & Hr)]; rewrite Hr in H.
  - destruct H as (d & H & _).
    exists (success_counter (op_of c)). split; [simpl; auto|]. eapply Hk, H.
  - destruct (code_eqb code RESOURCE_EXHAUSTED).
    + exists (rate_limited_counter (op_of c)).
      split; [simpl; auto|]. eapply Hk, H.
    + exists (failed_counter (op_of c)).
      split; [simpl; auto|]. eapply Hk, H.
Qed.

(** *** Generated credentials *)

Lemma length_join cs : String.length (join cs) = List.length cs.
Proof. induction cs as [|c cs IH]; simpl; [reflexivity|now rewrite IH]. Qed.

Lemma choices_spec population k g :
  population <> [] ->
  List.length (fst (choices population k g)) = k /\
  Forall (fun c => In c population) (fst (choices population k g)).
Proof.
  intros Hne. revert g.
  induction k as [|k IH]; intros g; simpl; [split; constructor|].
  specialize (IH (fun n => g (S n))).
  destruct (choices population k (fun n => g (S n))) as [cs g'].
  cbn [fst] in *. destruct IH as [Hlen Hin].
  split; [simpl; now rewrite Hlen|].
  constructor; [|exact Hin].
  apply nth_In, Nat.mod_upper_bound.
  destruct population; [congruence|discriminate].
Qed.


(** *** Every outcome, and sequences of calls *)

Lemma perform_unconnected c w :
  connected (self w) = false ->
  exists e, fst (perform c w) = Raise e /\
            self (snd (perform c w)) = self w /\
            wire (snd (perform c w)) = wire w.
Proof.
  unfold connected; intros Hc.
  destruct c as [index|email password]; unfold perform.
  - rewrite register_user_eq.
    destruct (register_request index (rng w)) as [request g]; cbv zeta.
    destruct (stub (self w)); [discriminate|].
    eexists; repeat split.
  - rewrite login_user_eq; cbv zeta.
    destruct (stub (self w)); [discriminate|].
    eexists; repeat split.
Qed.

Lemma op_total_counted op k (w w2 : World) :
  self w2 = self w ->
  In k [success_counter op; failed_counter op; rate_limited_counter op] ->
  op_total op (stats (self (counted k w2)))
  = op_total op (stats (self w)) + 1.
Proof.
  intros Hself Hk.
  cbn [counted self set_self stats set_stats]. rewrite Hself, op_total_incr.
  destruct op; simpl in Hk; destruct Hk as [<-|[<-|[<-|[]]]]; reflexivity.
Qed.

(** A call adds one to the total of its operation when it returns, and
    nothing when it is left by an exception. *)
Lemma perform_total c w :
  op_total (op_of c) (stats (self (snd (perform c w))))
  = op_total (op_of c) (stats (self w))
    + (if is_ok (fst (perform c w)) then 1 else 0).
Proof.
  destruct (connected (self w)) eqn:Hc.
  - destruct (perform_cases c w Hc) as (w2 & sent & Hself & _ & _ & _ & H).
    destruct (remote_answer c w) as [u|[code text| |class text]].
    + destruct H as (d & -> & _). cbn [fst snd is_ok].
      apply op_total_counted; simpl; auto.
    + destruct (code_eqb code RESOURCE_EXHAUSTED); rewrite H;
        cbn [fst snd is_ok]; apply op_total_counted; simpl; auto.
    + rewrite H; cbn [fst snd is_ok]. rewrite Hself; lia.
    + rewrite H; cbn [fst snd is_ok]. rewrite Hself; lia.
  - destruct (perform_unconnected c w Hc) as (e & -> & -> & _).
    cbn [is_ok]; lia.
Qed.

Lemma returned_cons A (r : Res A) rs :
  returned (r :: rs) = (if is_ok r then 1 else 0) + returned rs.
Proof.
  unfold returned; simpl. destruct (is_ok r); simpl List.length; lia.
Qed.

Lemma returned_all A (rs : list (Res A)) :
  forallb is_ok rs = true -> returned rs = Z.of_nat (List.length rs).
Proof.
  induction rs as [|r rs IH]; [reflexivity|].
  simpl forallb. intros [Hr Hrs]%andb_prop.
  rewrite returned_cons, Hr, IH by exact Hrs. simpl List.length; lia.
Qed.

Lemma length_call_each A (ms : list (M A)) w :
  List.length (fst (call_each ms w)) = List.length ms.
Proof.
  revert w; induction ms as [|m ms IH]; intros w; simpl; [reflexivity|].
  destruct (m w) as [r w1]. specialize (IH w1).
  destruct (call_each ms w1) as [rs w2]. simpl in *. now rewrite IH.
Qed.

Lemma is_op_eq op c : is_op op c = true -> op_of c = op.
Proof. unfold is_op; destruct op, (op_of c); congruence. Qed.

Lemma call_each_total op cs w :
  forallb (is_op op) cs = true ->
  op_total op (stats (self (snd (call_each (map perform cs) w))))
  = op_total op (stats (self w))
    + returned (fst (call_each (map perform cs) w)).
Proof.
  revert w; induction cs as [|c cs IH]; intros w Hop.
  - simpl. unfold returned; simpl. lia.
  - simpl in Hop. apply andb_prop in Hop as [Hc Hcs].
    apply is_op_eq in Hc. simpl.
    pose proof (perform_total c w) as Ht. rewrite Hc in Ht.
    destruct (perform c w) as [r w1]; cbn [fst snd] in Ht.
    specialize (IH w1 Hcs).
    destruct (call_each (map perform cs) w1) as [rs w2]; cbn [fst snd] in *.
    rewrite returned_cons. lia.
Qed.

(** C2, as the script has it.  Over a sequence of N calls of one operation
    the sum of its three counters grows by the number of calls that
    returned a record; a call left by an exception (one that is no RPC
    error) adds nothing.  So when each of the N calls returns, the sum
    after is the sum before plus N, and N itself when the counters started
    at zero. *)
Theorem attempts_add_up op cs w :
  forallb (is_op op) cs = true ->
  let rs := fst (call_each (map perform cs) w) in
  let s := stats (self w) in
  let s' := stats (self (snd (call_each (map perform cs) w))) in
  op_total op s' = op_total op s + returned rs /\
  (forallb is_ok rs = true ->
   op_total op s' = op_total op s + Z.of_nat (List.length cs) /\
   (s = stats (init (grpc_host (self w)) (grpc_port (self w))
                 (num_users (self w))) ->
    op_total op s' = Z.of_nat (List.length cs))).
Proof.
  intros Hop; cbv zeta.
  pose proof (call_each_total op cs w Hop) as Ht.
  split; [exact Ht|]. intros Hok.
  rewrite returned_all, length_call_each, length_map in Ht by exact Hok.
  split; [exact Ht|]. intros Hs. rewrite Ht, Hs. destruct op; reflexivity.
Qed.

(** C6, as the script has it.  Each call sends exactly one request, with
    [timeout=10].  When the remote call returns or raises an RPC error the
    call returns a record and the sum of the three counters of its
    operation has grown by one.  When the remote call raises anything else,
    that exception leaves the call and the counters are as they were. *)
Theorem outcome_recorded_unless_other_exception c w :
  connected (self w) = true ->
  (exists sent,
     wire (snd (perform c w)) = wire w ++ [sent] /\
     call_timeout sent = Some 10) /\
  match remote_answer c w with
  | Ok _ | Raise (RpcError _ _) =>
      is_ok (fst (perform c w)) = true /\
      op_total (op_of c) (stats (self (snd (perform c w))))
      = op_total (op_of c) (stats (self w)) + 1
  | Raise e =>
      fst (perform c w) = Raise e /\
      stats (self (snd (perform c w))) = stats (self w)
  end.
Proof.
  intros Hc. pose proof (perform_total c w) as Ht.
  destruct (perform_cases c w Hc) as (w2 & sent & Hself & _ & Hw & Hto & H).
  assert (Hwire : forall k, wire (counted k w2) = wire w2) by reflexivity.
  destruct (remote_answer c w) as [u|[code text| |class text]].
  - destruct H as (d & H & _). rewrite H in *; cbn [fst snd is_ok] in *.
    split; [exists sent; rewrite Hwire; auto|auto].
  - destruct (code_eqb code RESOURCE_EXHAUSTED);
      rewrite H in *; cbn [fst snd is_ok] in *;
      (split; [exists sent; rewrite Hwire; auto|auto]).
  - rewrite H; cbn [fst snd]. rewrite Hself.
    split; [exists sent; auto|auto].
  - rewrite H; cbn [fst snd]. rewrite Hself.
    split; [exists sent; auto|auto].
Qed.

(** *** A service that refuses every fourth call *)

Lemma fourth_step (n : nat) :
  Z.of_nat (S n) / 4
  = Z.of_nat n / 4 + (if (S n mod 4 =? 0)%nat then 1 else 0).
Proof using Type.
  pose proof (Nat2Z.inj_mod (S n) 4) as Hm.
  rewrite Nat2Z.inj_succ in Hm |- *. change (Z.of_nat 4) with 4 in Hm.
  destruct (Nat.eqb_spec (S n mod 4) 0) as [E|E].
  - rewrite E in Hm. change (Z.of_nat 0) with 0 in Hm.
    revert Hm. generalize (Z.of_nat n). clear. intros z Hm.
    Z.to_euclidean_division_equations; lia.
  - assert (H : Z.of_nat (S n mod 4) <> 0) by lia.
    revert Hm H. generalize (Z.of_nat (S n mod 4)) (Z.of_nat n). clear.
    intros r z Hm H.
    Z.to_euclidean_division_equations; lia.
Qed.

Section EveryFourth.

(** [calls e] is the number of Register calls the service has answered. *)
Variable calls : Env -> nat.

Hypothesis calls_step :
  forall request t e, calls (snd (remote_Register request t e)) = S (calls e).

Hypothesis fourth_refused :
  forall request t e,
    if (S (calls e) mod 4 =? 0)%nat
    then exists text,
           fst (remote_Register request t e)
           = Raise (RpcError RESOURCE_EXHAUSTED text)
    else exists response, fst (remote_Register request t e) = Ok response.

Lemma fourth_register index w :
  connected (self w) = true ->
  let w' := snd (register_user index w) in
  let refused_now :=
    if (S (calls (env w)) mod 4 =? 0)%nat then 1 else 0 in
  connected (self w') = true /\
  calls (env w') = S (calls (env w)) /\
  register_rate_limited (stats (self w'))
  = register_rate_limited (stats (self w)) + refused_now /\
  register_success (stats (self w'))
  = register_success (stats (self w)) + 1 - refused_now.
Proof.
  unfold connected; intros Hc; cbv zeta.
  rewrite register_user_eq.
  destruct (register_request index (rng w)) as [request g]; cbv zeta.
  destruct (stub (self w)) eqn:Hs; [|discriminate].
  pose proof (calls_step request (Some 10) (env w)) as Hn.
  pose proof (fourth_refused request (Some 10) (env w)) as Hf.
  destruct (remote_Register request (Some 10) (env w)) as [r e].
  cbn [fst snd] in Hn, Hf.
  destruct (S (calls (env w)) mod 4 =? 0)%nat.
  - destruct Hf as [text ->]; cbn.
    rewrite Hs. repeat split; [exact Hn|lia].
  - destruct Hf as [response ->]; cbn.
    rewrite Hs. repeat split; [exact Hn|lia|lia].
Qed.

Lemma fourth_run idxs : forall w,
  connected (self w) = true ->
  let w' := snd (call_each (map register_user idxs) w) in
  let refused_here :=
    Z.of_nat (calls (env w) + List.length idxs) / 4
    - Z.of_nat (calls (env w)) / 4 in
  register_rate_limited (stats (self w'))
  = register_rate_limited (stats (self w)) + refused_here /\
  register_success (stats (self w'))
  = register_success (stats (self w)) + Z.of_nat (List.length idxs)
    - refused_here.
Proof.
  induction idxs as [|index idxs IH]; intros w Hc; cbv zeta.
  - simpl. rewrite Nat.add_0_r. lia.
  - simpl map; simpl call_each.
    destruct (fourth_register index w Hc) as (Hc1 & Hn & Hrl & Hok).
    destruct (register_user index w) as [r w1]; cbn [snd] in *.
    specialize (IH w1 Hc1); cbv zeta in IH.
    destruct (call_each (map register_user idxs) w1) as [rs w2].
    cbn [snd] in *. destruct IH as [IHrl IHok].
    rewrite Hn in IHrl, IHok.
    replace (calls (env w) + List.length (index :: idxs))%nat
      with (S (calls (env w)) + List.length idxs)%nat by (simpl; lia).
    pose proof (fourth_step (calls (env w))) as Hstep.
    simpl List.length. rewrite Nat2Z.inj_succ. lia.
Qed.

(** C5.  Against a service that refuses every fourth Register call with
    RESOURCE_EXHAUSTED and accepts the others, N calls of [register_user]
    on fresh counters leave [register_rate_limited = floor(N/4)] and
    [register_success = N - floor(N/4)]. *)
Theorem every_fourth_rate_limited idxs w :
  connected (self w) = true ->
  calls (env w) = O ->
  stats (self w)
  = stats (init (grpc_host (self w)) (grpc_port (self w))
             (num_users (self w))) ->
  let N := Z.of_nat (List.length idxs) in
  let s' := stats (self (snd (call_each (map register_user idxs) w))) in
  register_rate_limited s' = N / 4 /\
  register_success s' = N - N / 4.
Proof.
  intros Hc Hn Hs; cbv zeta.
  destruct (fourth_run idxs w Hc) as [Hrl Hok].
  rewrite Hn, Hs in Hrl, Hok.
  cbn [Nat.add stats init register_rate_limited register_success]
    in Hrl, Hok.
  change (Z.of_nat 0 / 4) with 0 in Hrl, Hok.
  split; lia.
Qed.

End EveryFourth.

(** *** Properties of the tester that every method keeps

    [unchanged m]: [m] does not touch the tester.  [always P m]: the tester
    before and after [m] are related by [P], whatever the outcome.  For a
    preorder [P] that the three writes of the script respect (a counter
    goes up by one, [total_time] is set, [created_users] grows), every
    method but [connect] keeps [P]. *)

Lemma unchanged_print msg : unchanged (print msg).
Proof. intros w; reflexivity. Qed.

Lemma unchanged_get_self : unchanged get_self.
Proof. intros w; reflexivity. Qed.

Lemma unchanged_ret A (a : A) : unchanged (ret a).
Proof. intros w; reflexivity. Qed.

Lemma unchanged_raise A e : unchanged (raise e : M A).
Proof. intros w; reflexivity. Qed.

Lemma unchanged_getitem d k : unchanged (getitem d k).
Proof. intros w; unfold getitem; destruct (dict_get k d); reflexivity. Qed.

Lemma unchanged_as_str v : unchanged (as_str v).
Proof. intros w; destruct v; reflexivity. Qed.

Lemma unchanged_future_result r : unchanged (future_result r).
Proof. intros w; destruct r; reflexivity. Qed.

Lemma unchanged_check_division b : unchanged (check_division b).
Proof. intros w; unfold check_division; destruct (b =? 0); reflexivity. Qed.

Lemma unchanged_random_choices population k :
  unchanged (random_choices population k).
Proof.
  intros w; unfold random_choices. destruct (choices _ k (rng w)); reflexivity.
Qed.

Lemma unchanged_stub_Register request t : unchanged (stub_Register request t).
Proof.
  intros w; unfold stub_Register. destruct (stub (self w)); [|reflexivity].
  destruct (remote_Register request t (env w)); reflexivity.
Qed.

Lemma unchanged_stub_Login request t : unchanged (stub_Login request t).
Proof.
  intros w; unfold stub_Login. destruct (stub (self w)); [|reflexivity].
  destruct (remote_Login request t (env w)); reflexivity.
Qed.

Lemma unchanged_time_time : unchanged time_time.
Proof. intros w; unfold time_time; destruct (clock_time (env w)); reflexivity. Qed.

Lemma unchanged_datetime_now : unchanged datetime_now.
Proof.
  intros w; unfold datetime_now; destruct (clock_now (env w)); reflexivity.
Qed.

Lemma unchanged_time_sleep d : unchanged (time_sleep d).
Proof.
  intros w; unfold time_sleep; destruct (clock_sleep d (env w)); reflexivity.
Qed.

Lemma unchanged_input prompt : unchanged (input prompt).
Proof.
  intros w; unfold input; destruct (terminal_input prompt (env w)); reflexivity.
Qed.

Lemma unchanged_next_completed n : unchanged (next_completed n).
Proof.
  intros w; unfold next_completed; destruct (pool_next n (env w)); reflexivity.
Qed.

Create HintDb unchanged.
#[local] Hint Resolve unchanged_print unchanged_get_self unchanged_ret
  unchanged_raise unchanged_getitem unchanged_as_str unchanged_future_result
  unchanged_check_division unchanged_random_choices unchanged_stub_Register
  unchanged_stub_Login unchanged_time_time unchanged_datetime_now
  unchanged_time_sleep unchanged_input unchanged_next_completed : unchanged.

Section Always.

Variable P : UserLoadTester -> UserLoadTester -> Prop.
Hypothesis P_refl : forall t, P t t.
Hypothesis P_trans : forall t1 t2 t3, P t1 t2 -> P t2 t3 -> P t1 t3.
Hypothesis P_bump : forall c t, P t (set_stats (incr c (stats t)) t).
Hypothesis P_total_time :
  forall x t, P t (set_stats (set_total_time x (stats t)) t).
Hypothesis P_created : forall l t, P t (set_created_users l t).

Lemma always_unchanged A (m : M A) : unchanged m -> always P m.
Proof. intros H w; rewrite H; apply P_refl. Qed.

Lemma always_bind A B (m : M A) (k : A -> M B) :
  always P m -> (forall a, always P (k a)) -> always P (bind m k).
Proof.
  intros Hm Hk w; unfold bind. specialize (Hm w).
  destruct (m w) as [[a|e] w1]; cbn [snd] in *; [|exact Hm].
  eapply P_trans; [exact Hm|apply Hk].
Qed.

Lemma always_attempt A (m : M A) : always P m -> always P (attempt m).
Proof.
  intros Hm w; unfold attempt. specialize (Hm w).
  destruct (m w) as [r w1]; exact Hm.
Qed.

Lemma always_try_except_RpcError A (m : M A) h :
  always P m -> (forall code text, always P (h code text)) ->
  always P (try_except_RpcError m h).
Proof.
  intros Hm Hh w; unfold try_except_RpcError. specialize (Hm w).
  destruct (m w) as [[a|[code text| |class text]] w1]; cbn [snd] in *;
    try exact Hm.
  eapply P_trans; [exact Hm|apply Hh].
Qed.

Lemma always_for_ X S (body : X -> S -> M S) xs :
  (forall x s, always P (body x s)) -> forall s, always P (for_ xs body s).
Proof.
  intros Hb; induction xs as [|x xs IH]; intros s; simpl.
  - apply always_unchanged; auto with unchanged.
  - apply always_bind; [apply Hb|exact IH].
Qed.

Lemma always_bump c : always P (bump c : M unit).
Proof. intros w; apply P_bump. Qed.

(** One step of a proof that a program keeps [P]: by the shape of the
    program. *)
Ltac always_step :=
  lazymatch goal with
  | |- always _ (bind _ _) => apply always_bind; [|intros ?]
  | |- always _ (attempt _) => apply always_attempt
  | |- always _ (try_except_RpcError _ _) =>
      apply always_try_except_RpcError; [|intros ? ?]
  | |- always _ (for_ _ _ _) => apply always_for_; intros ? ?
  | |- always _ (bump _) => apply always_bump
  | |- always _ (if ?b then _ else _) => destruct b
  | |- always _ (match ?x with _ => _ end) => destruct x
  | |- always _ (let _ := _ in _) => cbv zeta
  | |- always _ _ => solve [apply always_unchanged; auto with unchanged]
  end.

Lemma always_register_user index : always P (register_user index).
Proof.
  unfold register_user, generate_random_email, generate_random_password.
  repeat always_step.
Qed.

Lemma always_login_user email password :
  always P (login_user email password).
Proof. unfold login_user. repeat always_step. Qed.

Lemma always_shutdown pending : always P (shutdown pending).
Proof.
  unfold shutdown. repeat always_step. apply always_register_user.
Qed.

Lemma always_submit_all n : always P (submit_all n).
Proof. unfold submit_all. repeat always_step. Qed.

Lemma always_collect_one n start_time i outcome :
  always P (collect_one n start_time i outcome).
Proof.
  unfold collect_one. repeat always_step.
  intros w; apply P_created.
Qed.

Lemma always_collect fuel n start_time : forall pending i,
  always P (collect fuel n start_time pending i).
Proof.
  induction fuel as [|fuel IH]; intros pending i; simpl.
  - apply always_unchanged; auto with unchanged.
  - destruct pending as [|p pending];
      [apply always_unchanged; auto with unchanged|].
    repeat always_step;
      first [apply always_shutdown | apply always_register_user
            | apply always_collect_one | apply IH].
Qed.

Lemma always_create_users_batch batch_size max_workers :
  always P (create_users_batch batch_size max_workers).
Proof.
  unfold create_users_batch. repeat always_step.
  - apply always_submit_all.
  - apply always_collect.
  - intros w; apply P_total_time.
Qed.

Lemma always_test_rate_limiting_register attempts :
  always P (test_rate_limiting_register attempts).
Proof.
  unfold test_rate_limiting_register. repeat always_step.
  all: apply always_register_user.
Qed.

Lemma always_login_attempts test_user attempts :
  always P (login_attempts test_user attempts).
Proof.
  unfold login_attempts. repeat always_step.
  all: apply always_login_user.
Qed.

Lemma always_test_rate_limiting_login attempts :
  always P (test_rate_limiting_login attempts).
Proof.
  unfold test_rate_limiting_login. repeat always_step;
    first [apply always_login_attempts | apply always_register_user].
Qed.

Lemma always_print_summary : always P print_summary.
Proof. unfold print_summary. repeat always_step. Qed.

Lemma always_disconnect : always P disconnect.
Proof. unfold disconnect. repeat always_step. Qed.

(** The body of [main] after [connect]. *)
Lemma always_after_connect :
  always P
    (print MPhase1 ;;
     test_rate_limiting_register 10 ;;
     print MWaiting ;;
     time_sleep 2000 ;;
     test_rate_limiting_login 10 ;;
     print MPhase2 ;;
     user_input <- input ("Proceed with creating " +++ str_int NUM_USERS
                          +++ " users? (yes/no): ") ;;
     (if says_yes user_input then create_users_batch BATCH_SIZE MAX_WORKERS
      else print MSkippingBulk) ;;
     print_summary).
Proof.
  repeat always_step;
    first [apply always_test_rate_limiting_register
          | apply always_test_rate_limiting_login
          | apply always_create_users_batch
          | apply always_print_summary].
Qed.

Lemma always_try_except_main A (m h1 : M A) h2 :
  always P m -> always P h1 -> (forall e, always P (h2 e)) ->
  always P (try_except_main m h1 h2).
Proof.
  intros Hm H1 H2 w; unfold try_except_main. specialize (Hm w).
  destruct (m w) as [[a|[code text| |class text]] w1]; cbn [snd] in *;
    try exact Hm; (eapply P_trans; [exact Hm|]); first [apply H1|apply H2].
Qed.

Lemma always_try_finally A (m : M A) f :
  always P m -> always P f -> always P (try_finally m f).
Proof.
  intros Hm Hf w; unfold try_finally. specialize (Hm w).
  destruct (m w) as [r w1]; cbn [snd] in *. specialize (Hf w1).
  destruct (f w1) as [[u|e] w2]; cbn [snd] in *;
    eapply P_trans; eauto.
Qed.

End Always.

(** *** The counters only grow *)

Lemma counters_grow_refl t : counters_grow t t.
Proof. apply stats_le_refl. Qed.

Lemma counters_grow_trans t1 t2 t3 :
  counters_grow t1 t2 -> counters_grow t2 t3 -> counters_grow t1 t3.
Proof. apply stats_le_trans. Qed.

Lemma counters_grow_bump c t :
  counters_grow t (set_stats (incr c (stats t)) t).
Proof. apply stats_le_incr. Qed.

Lemma counters_grow_total_time x t :
  counters_grow t (set_stats (set_total_time x (stats t)) t).
Proof. apply stats_le_set_total_time. Qed.

Lemma counters_grow_created l t : counters_grow t (set_created_users l t).
Proof. apply stats_le_refl. Qed.

Lemma counters_grow_connect : always counters_grow connect.
Proof. intros w; apply stats_le_refl. Qed.

Ltac grow :=
  solve [ exact counters_grow_refl | exact counters_grow_trans
        | exact counters_grow_bump | exact counters_grow_total_time
        | exact counters_grow_created ].

Ltac grow_unchanged :=
  apply always_unchanged; [grow|auto with unchanged].

Lemma counters_grow_main_body : always counters_grow main_body.
Proof.
  unfold main_body.
  apply always_bind; [grow|exact counters_grow_connect|intros ?].
  apply always_after_connect; grow.
Qed.

Lemma main_eq w : main w = main_try (main_entry w).
Proof.
  unfold main, main_entry, bind, datetime_now, print, modify_self.
  destruct (clock_now (env w)); reflexivity.
Qed.

Lemma counters_grow_main_try : always counters_grow main_try.
Proof.
  unfold main_try.
  apply always_try_finally; try grow.
  - apply always_try_except_main; try grow.
    + exact counters_grow_main_body.
    + apply always_bind;
        [grow|grow_unchanged|intros ?; apply always_print_summary; grow].
    + intros e0.
      apply always_bind; [grow|grow_unchanged|intros ?; grow_unchanged].
  - apply always_bind; [grow|apply always_disconnect; grow|intros ?].
    apply always_bind; [grow|grow_unchanged|intros ?; grow_unchanged].
Qed.

(** C4.  No method of the tester, and not the body of [main] either, ever
    lowers one of the six counters: for each counter, its value after is at
    least its value before, whether the method returns or is left by an
    exception.  [main] builds its tester with all counters at zero and ends
    with none below zero. *)
Theorem counters_never_decrease :
  always counters_grow connect /\
  always counters_grow disconnect /\
  (forall index, always counters_grow (register_user index)) /\
  (forall email password, always counters_grow (login_user email password)) /\
  (forall batch_size max_workers,
     always counters_grow (create_users_batch batch_size max_workers)) /\
  (forall attempts,
     always counters_grow (test_rate_limiting_register attempts)) /\
  (forall attempts, always counters_grow (test_rate_limiting_login attempts)) /\
  always counters_grow print_summary /\
  always counters_grow main_body /\
  (forall w c,
     count c (stats (init GRPC_HOST GRPC_PORT NUM_USERS))
     <= count c (stats (self (snd (main w))))).
Proof.
  repeat split.
  - exact counters_grow_connect.
  - apply always_disconnect; grow.
  - intros; apply always_register_user; grow.
  - intros; apply always_login_user; grow.
  - intros; apply always_create_users_batch; grow.
  - intros; apply always_test_rate_limiting_register; grow.
  - intros; apply always_test_rate_limiting_login; grow.
  - apply always_print_summary; grow.
  - exact counters_grow_main_body.
  - intros w. rewrite main_eq.
    pose proof (counters_grow_main_try (main_entry w)) as H.
    unfold main_entry in H at 1. destruct (clock_now (env w)). exact H.
Qed.

(** *** RPC errors stay inside the two calls *)

Lemma no_rpc_ret A (a : A) : no_rpc_error (ret a : M A).
Proof. intros w code text; discriminate. Qed.

Lemma no_rpc_raise A B e : not_rpc (Raise e : Res A) ->
  no_rpc_error (raise e : M B).
Proof. intros H w code text [= ->]. now apply (H code text). Qed.

Lemma no_rpc_bind A B (m : M A) (k : A -> M B) :
  no_rpc_error m -> (forall a, no_rpc_error (k a)) -> no_rpc_error (bind m k).
Proof.
  intros Hm Hk w code text; unfold bind. specialize (Hm w code text).
  destruct (m w) as [[a|e] w1]; cbn [fst] in *; [apply Hk|].
  intros [= ->]; now apply Hm.
Qed.

Lemma no_rpc_bind_attempt A B (m : M A) (k : Res A -> M B) :
  no_rpc_error m -> (forall r, not_rpc r -> no_rpc_error (k r)) ->
  no_rpc_error (bind (attempt m) k).
Proof.
  intros Hm Hk w code text; unfold bind, attempt.
  pose proof (Hm w) as Hr. destruct (m w) as [r w1]; cbn [fst] in *.
  now apply Hk.
Qed.

Lemma no_rpc_try_except_RpcError A (m : M A) h :
  (forall code text, no_rpc_error (h code text)) ->
  no_rpc_error (try_except_RpcError m h).
Proof.
  intros Hh w code text; unfold try_except_RpcError.
  destruct (m w) as [[a|[code' text'| |class text']] w1]; cbn [fst];
    try discriminate.
  apply Hh.
Qed.

Lemma no_rpc_for_ X S (body : X -> S -> M S) xs :
  (forall x s, no_rpc_error (body x s)) ->
  forall s, no_rpc_error (for_ xs body s).
Proof.
  intros Hb; induction xs as [|x xs IH]; intros s; simpl.
  - apply no_rpc_ret.
  - apply no_rpc_bind; [apply Hb|exact IH].
Qed.

Lemma no_rpc_print msg : no_rpc_error (print msg : M unit).
Proof. intros w code text; discriminate. Qed.

Lemma no_rpc_get_self : no_rpc_error (get_self : M UserLoadTester).
Proof. intros w code text; discriminate. Qed.

Lemma no_rpc_modify_self f : no_rpc_error (modify_self f : M unit).
Proof. intros w code text; discriminate. Qed.

Lemma no_rpc_bump c : no_rpc_error (bump c : M unit).
Proof. intros w code text; discriminate. Qed.

Lemma no_rpc_getitem d k : no_rpc_error (getitem d k : M value).
Proof.
  intros w code text; unfold getitem; destruct (dict_get k d); discriminate.
Qed.

Lemma no_rpc_as_str v : no_rpc_error (as_str v : M string).
Proof. intros w code text; destruct v; discriminate. Qed.

Lemma no_rpc_check_division b : no_rpc_error (check_division b).
Proof.
  intros w code text; unfold check_division; destruct (b =? 0); discriminate.
Qed.

Lemma no_rpc_random_choices population k :
  no_rpc_error (random_choices population k : M (list ascii)).
Proof.
  intros w code text; unfold random_choices.
  destruct (choices _ k (rng w)); discriminate.
Qed.

Lemma no_rpc_time_time : no_rpc_error time_time.
Proof.
  intros w code text; unfold time_time.
  destruct (clock_time (env w)); discriminate.
Qed.

Lemma no_rpc_datetime_now : no_rpc_error datetime_now.
Proof.
  intros w code text; unfold datetime_now.
  destruct (clock_now (env w)); discriminate.
Qed.

Lemma no_rpc_time_sleep d : no_rpc_error (time_sleep d).
Proof.
  intros w code text; unfold time_sleep.
  destruct (clock_sleep d (env w)) as [[|] e]; discriminate.
Qed.

Lemma no_rpc_input prompt : no_rpc_error (input prompt).
Proof.
  intros w code text; unfold input.
  destruct (terminal_input prompt (env w)) as [[s| |] e]; discriminate.
Qed.

Lemma no_rpc_next_completed n : no_rpc_error (next_completed n).
Proof.
  intros w code text; unfold next_completed.
  destruct (pool_next n (env w)) as [[k|] e]; discriminate.
Qed.

Lemma no_rpc_future_result r : not_rpc r -> no_rpc_error (future_result r).
Proof.
  intros H w code text; destruct r as [d|e]; [discriminate|apply H].
Qed.

Create HintDb no_rpc.
#[local] Hint Resolve no_rpc_ret no_rpc_print no_rpc_get_self
  no_rpc_modify_self no_rpc_bump no_rpc_getitem no_rpc_as_str
  no_rpc_check_division no_rpc_random_choices no_rpc_time_time
  no_rpc_datetime_now no_rpc_time_sleep no_rpc_input no_rpc_next_completed
  no_rpc_future_result no_rpc_raise : no_rpc.

Ltac no_rpc_step :=
  lazymatch goal with
  | |- no_rpc_error (bind (attempt _) _) =>
      apply no_rpc_bind_attempt; [|intros ? ?]
  | |- no_rpc_error (bind _ _) => apply no_rpc_bind; [|intros ?]
  | |- no_rpc_error (try_except_RpcError _ _) =>
      apply no_rpc_try_except_RpcError; intros ? ?
  | |- no_rpc_error (for_ _ _ _) => apply no_rpc_for_; intros ? ?
  | |- no_rpc_error (if ?b then _ else _) => destruct b
  | |- no_rpc_error (match ?x with _ => _ end) => destruct x
  | |- no_rpc_error (let _ := _ in _) => cbv zeta
  | |- no_rpc_error _ => solve [eauto with no_rpc]
  end.

Lemma no_rpc_register_user index : no_rpc_error (register_user index).
Proof.
  unfold register_user, generate_random_email, generate_random_password.
  repeat no_rpc_step.
Qed.

Lemma no_rpc_login_user email password :
  no_rpc_error (login_user email password).
Proof. unfold login_user. repeat no_rpc_step. Qed.

Lemma no_rpc_shutdown pending : no_rpc_error (shutdown pending).
Proof.
  unfold shutdown. repeat no_rpc_step. apply no_rpc_register_user.
Qed.

Lemma no_rpc_collect_one n start_time i outcome :
  not_rpc outcome -> no_rpc_error (collect_one n start_time i outcome).
Proof. intros H. unfold collect_one. repeat no_rpc_step. Qed.

Lemma no_rpc_collect fuel n start_time : forall pending i,
  no_rpc_error (collect fuel n start_time pending i).
Proof.
  induction fuel as [|fuel IH]; intros pending i; simpl;
    [apply no_rpc_ret|].
  destruct pending as [|p pending]; [apply no_rpc_ret|].
  repeat no_rpc_step;
    first [apply no_rpc_shutdown | apply no_rpc_register_user
          | now apply no_rpc_collect_one | apply IH].
Qed.

Lemma no_rpc_create_users_batch batch_size max_workers :
  no_rpc_error (create_users_batch batch_size max_workers).
Proof.
  unfold create_users_batch, submit_all. repeat no_rpc_step.
  apply no_rpc_collect.
Qed.

Lemma no_rpc_test_rate_limiting_register attempts :
  no_rpc_error (test_rate_limiting_register attempts).
Proof.
  unfold test_rate_limiting_register. repeat no_rpc_step.
  all: apply no_rpc_register_user.
Qed.

Lemma no_rpc_login_attempts test_user attempts :
  no_rpc_error (login_attempts test_user attempts).
Proof.
  unfold login_attempts. repeat no_rpc_step.
  all: apply no_rpc_login_user.
Qed.

Lemma no_rpc_test_rate_limiting_login attempts :
  no_rpc_error (test_rate_limiting_login attempts).
Proof.
  unfold test_rate_limiting_login. repeat no_rpc_step;
    first [apply no_rpc_login_attempts | apply no_rpc_register_user].
Qed.

Lemma no_rpc_main_body : no_rpc_error main_body.
Proof.
  unfold main_body, connect, print_summary. repeat no_rpc_step;
    first [apply no_rpc_test_rate_limiting_register
          | apply no_rpc_test_rate_limiting_login
          | apply no_rpc_create_users_batch].
Qed.

(** *** What reaches the top level *)

Lemma main_body_channel w : channel (self (snd (main_body w))) <> None.
Proof.
  unfold main_body.
  match goal with
  | |- context [bind connect ?k] =>
      assert (H : always same_channel (k tt))
  end.
  { apply always_after_connect; unfold same_channel;
      solve [reflexivity | intros; congruence]. }
  unfold bind at 1.
  change (connect w) with
    (Ok tt,
     add_stdout (MConnected (grpc_host (self w)) (grpc_port (self w)))
       (set_self
          (set_connection
             (Some {| target := grpc_host (self w) +++ ":"
                                +++ str_int (grpc_port (self w)) |})
             (Some {| stub_channel :=
                        {| target := grpc_host (self w) +++ ":"
                                     +++ str_int (grpc_port (self w)) |} |})
             (self w)) w)).
  cbv iota beta. rewrite H. discriminate.
Qed.

Lemma bind_Ok A B (m : M A) (k : A -> M B) w b w' :
  bind m k w = (Ok b, w') ->
  exists a w1, m w = (Ok a, w1) /\ k a w1 = (Ok b, w').
Proof.
  unfold bind. destruct (m w) as [[a|e] w1]; [eauto|discriminate].
Qed.

Lemma main_body_ends_with_summary w u w1 :
  main_body w = (Ok u, w1) ->
  exists out,
    stdout w1 = out ++ [MSummary (num_users (self w1)) (stats (self w1))].
Proof.
  unfold main_body. intros H.
  do 9 (apply bind_Ok in H; destruct H as (? & ? & _ & H)).
  unfold print_summary, bind, get_self, print in H.
  injection H as _ <-. eexists; reflexivity.
Qed.

Lemma finally_block w ch :
  channel (self w) = Some ch ->
  (disconnect ;; finish <- datetime_now ;; print (MEndTime finish)) w
  = (Ok tt,
     add_stdout (MEndTime (fst (clock_now (env w))))
       (set_env (snd (clock_now (env w))) (add_stdout MDisconnected w))).
Proof.
  intros Hch. unfold disconnect, datetime_now, bind, get_self, print.
  rewrite Hch. cbn [env add_stdout].
  destruct (clock_now (env w)); reflexivity.
Qed.


(** *** What [created_users] holds *)

Lemma successes_recorded_refl t : successes_recorded t t.
Proof.
  exists []. rewrite app_nil_r. repeat split; [simpl; lia|constructor].
Qed.

Lemma successes_recorded_trans t1 t2 t3 :
  successes_recorded t1 t2 -> successes_recorded t2 t3 ->
  successes_recorded t1 t3.
Proof.
  intros (a1 & H1 & L1 & F1) (a2 & H2 & L2 & F2).
  exists (a1 ++ a2). rewrite H2, H1, app_assoc, length_app.
  repeat split; [lia|now apply Forall_app].
Qed.

Lemma successes_recorded_same t t' :
  created_users t' = created_users t ->
  register_success (stats t') = register_success (stats t) ->
  successes_recorded t t'.
Proof.
  intros Hc Hs. exists []. rewrite app_nil_r, Hs.
  repeat split; [exact Hc|simpl; lia|constructor].
Qed.

Lemma usable_registered index g request g' response :
  register_request index g = (request, g') ->
  usable_entry (registered request response).
Proof.
  unfold register_request.
  pose proof (choices_spec
    (list_ascii_of_string (ascii_letters +++ digits +++ "!@#$%")) 12) as H.
  destruct (choices _ 6 g) as [suffix g1].
  specialize (H g1 ltac:(discriminate)).
  destruct (choices _ 12 g1) as [cs g2]; cbn [fst] in H.
  intros [= <- _]. split; [reflexivity|].
  eexists _, _, _. cbn [registered dict_get String.eqb Ascii.eqb Bool.eqb
                        req_email req_password].
  repeat split; [discriminate|].
  rewrite length_join. apply H.
Qed.

(** What one registration leaves in the tester, and what it returns. *)
Lemma register_user_entry index w :
  match register_user index w with
  | (Ok d, w') =>
      created_users (self w') = created_users (self w) /\
      ((dict_get "success" d = Some (VBool true) /\ usable_entry d /\
        register_success (stats (self w'))
        = register_success (stats (self w)) + 1) \/
       (dict_get "success" d = Some (VBool false) /\
        register_success (stats (self w'))
        = register_success (stats (self w))))
  | (Raise _, w') => self w' = self w
  end.
Proof.
  rewrite register_user_eq.
  destruct (register_request index (rng w)) as [request g] eqn:Hq; cbv zeta.
  destruct (stub (self w)); [|reflexivity].
  destruct (remote_Register request (Some 10) (env w))
    as [[response|[code text| |class text]] e]; try reflexivity.
  - split; [reflexivity|left].
    split; [reflexivity|]. split; [|reflexivity].
    eapply usable_registered, Hq.
  - destruct (code_eqb code RESOURCE_EXHAUSTED);
      (split; [reflexivity|right; split; reflexivity]).
Qed.

Lemma raise_after_never_ok A B (m : M A) e w (b : B) w' :
  (m ;; raise e) w <> (Ok b, w').
Proof. unfold bind, raise. destruct (m w) as [[a|e'] w1]; discriminate. Qed.

Lemma attempt_Ok A (m : M A) w r w' :
  attempt m w = (Ok r, w') -> m w = (r, w').
Proof. unfold attempt. destruct (m w). now intros [= -> ->]. Qed.

Lemma collect_one_ok n start_time i outcome w u w' :
  collect_one n start_time i outcome w = (Ok u, w') ->
  exists d v,
    outcome = Ok d /\ dict_get "success" d = Some v /\
    self w' = (if truthy (Some v)
               then set_created_users (created_users (self w) ++ [d]) (self w)
               else self w).
Proof.
  unfold collect_one. intros H.
  apply bind_Ok in H as (d0 & w1 & H1 & H).
  destruct outcome as [d|e]; [|discriminate].
  injection H1 as <- <-.
  apply bind_Ok in H as (v0 & w2 & H2 & H).
  unfold getitem in H2. destruct (dict_get "success" d) as [v|] eqn:Hv;
    [|discriminate].
  injection H2 as <- <-.
  apply bind_Ok in H as (u3 & w3 & H3 & H).
  exists d, v. split; [reflexivity|]. split; [exact Hv|].
  assert (Hrest : self w' = self w3).
  { destruct ((i + 1) mod 1000 =? 0); [|now injection H as _ <-].
    apply bind_Ok in H as (now & w4 & H4 & H).
    apply bind_Ok in H as (u5 & w5 & H5 & H).
    pose proof (unchanged_time_time w3) as E4. rewrite H4 in E4.
    pose proof (unchanged_check_division (now - start_time) w4) as E5.
    rewrite H5 in E5. injection H as _ <-. cbn [snd] in *.
    cbn [self add_stdout]. congruence. }
  rewrite Hrest. destruct (truthy (Some v)); now injection H3 as _ <-.
Qed.

Lemma collect_ok fuel n start_time : forall pending i w u w',
  collect fuel n start_time pending i w = (Ok u, w') ->
  successes_recorded (self w) (self w').
Proof.
  induction fuel as [|fuel IH]; intros pending i w u w'; simpl;
    [intros [= _ <-]; apply successes_recorded_refl|].
  destruct pending as [|p pending];
    [intros [= _ <-]; apply successes_recorded_refl|].
  intros H.
  apply bind_Ok in H as (waited & w1 & H1 & H). apply attempt_Ok in H1.
  pose proof (unchanged_next_completed (List.length (p :: pending)) w) as E1.
  rewrite H1 in E1; cbn [snd] in E1.
  destruct waited as [k|e]; [|now apply raise_after_never_ok in H].
  apply bind_Ok in H as (outcome & w2 & H2 & H). apply attempt_Ok in H2.
  pose proof (register_user_entry
    (IdxInt (nth (k mod List.length (p :: pending)) (p :: pending) 0)) w1)
    as Hreg.
  rewrite H2 in Hreg.
  apply bind_Ok in H as (turn & w3 & H3 & H). apply attempt_Ok in H3.
  destruct turn as [u3|e]; [|now apply raise_after_never_ok in H].
  apply IH in H.
  eapply successes_recorded_trans; [|exact H].
  destruct (collect_one_ok n start_time i outcome w2 u3 w3 H3)
    as (d & v & -> & Hv & Hself).
  rewrite <- E1, Hself. destruct Hreg as [Hcr [(Hs & Hu & Hn)|(Hs & Hn)]];
    rewrite Hs in Hv; injection Hv as <-; cbn [truthy].
  - exists [d]. cbn [created_users set_created_users stats].
    rewrite Hcr, Hn. repeat split; [simpl; lia|now constructor].
  - now apply successes_recorded_same.
Qed.

Lemma unchanged_run A (m : M A) w r w' :
  unchanged m -> m w = (r, w') -> self w' = self w.
Proof. intros H E. specialize (H w). now rewrite E in H. Qed.

Lemma unchanged_submit_all n : unchanged (submit_all n).
Proof.
  intros w.
  apply (always_submit_all same_tester); unfold same_tester; congruence.
Qed.


(** ** Further facts about the script *)

(** *** Emails of different indices *)

Lemma length_append (a b : string) :
  String.length (a +++ b) = (String.length a + String.length b)%nat.
Proof. induction a as [|c a IH]; simpl; [reflexivity|now rewrite IH]. Qed.

Lemma append_same_tail_length (a1 a2 b1 b2 : string) :
  a1 +++ b1 = a2 +++ b2 -> String.length b1 = String.length b2 -> a1 = a2.
Proof.
  revert a2; induction a1 as [|c a1 IH]; intros [|c2 a2] E L; simpl in E.
  - reflexivity.
  - apply (f_equal String.length) in E. simpl in E.
    rewrite length_append in E. lia.
  - apply (f_equal String.length) in E. simpl in E.
    rewrite length_append in E. lia.
  - injection E as -> E. f_equal. now apply IH.
Qed.

Lemma str_int_inj i j : str_int i = str_int j -> i = j.
Proof.
  assert (N : forall z, NilZero.int_of_string (str_int z)
                        = Some (Z.to_int z)).
  { intros z. unfold str_int. apply NilZero.isi;
      rewrite <- (DecimalZ.of_to z), DecimalZ.to_of;
      destruct (Z.to_int z) as [d|d]; unfold Decimal.norm, Decimal.unorm;
      destruct (Decimal.nzhead d); discriminate. }
  intros E. apply DecimalZ.to_int_inj.
  pose proof (N i) as Hi. rewrite E, N in Hi. now injection Hi.
Qed.

(** X1.  The email tells the index: two generated emails that are equal
    were generated for indices with the same text, whatever the random
    suffixes; so the emails of two different int indices, as in one batch,
    are always different. *)
Theorem emails_of_different_indices_differ i j w1 w2 :
  i <> j ->
  fst (generate_random_email (IdxInt i) w1)
  <> fst (generate_random_email (IdxInt j) w2) /\
  (forall index1 index2,
     fst (generate_random_email index1 w1)
     = fst (generate_random_email index2 w2) ->
     format_index index1 = format_index index2).
Proof.
  assert (G : forall index1 index2,
             fst (generate_random_email index1 w1)
             = fst (generate_random_email index2 w2) ->
             format_index index1 = format_index index2).
  { intros index1 index2.
    unfold generate_random_email, random_choices, bind, ret.
    pose proof (choices_spec
      (list_ascii_of_string (ascii_lowercase +++ digits)) 6) as H.
    pose proof (H (rng w1) ltac:(discriminate)) as [L1 _].
    pose proof (H (rng w2) ltac:(discriminate)) as [L2 _].
    destruct (choices _ 6 (rng w1)) as [s1 g1].
    destruct (choices _ 6 (rng w2)) as [s2 g2].
    cbn [fst] in L1, L2 |- *. intros [= E].
    apply append_same_tail_length in E; [exact E|].
    cbn [String.append String.length]. rewrite !length_append, !length_join.
    now rewrite L1, L2. }
  intros Hij. split; [|exact G].
  intros E. apply G in E. apply Hij, str_int_inj, E.
Qed.

(** *** A login that succeeds *)

(** X2.  When the Login call returns, [login_user] has sent exactly the
    email and the password it was given, with [timeout=10], has added one
    to [login_success] and to nothing else, and returns
    [success = True] with the access token of the response. *)
Theorem login_user_returns_token email password w response e :
  connected (self w) = true ->
  remote_Login {| login_email := email; login_password := password |}
    (Some 10) (env w) = (Ok response, e) ->
  let w' := snd (login_user email password w) in
  fst (login_user email password w)
  = Ok [("success", VBool true); ("token", VStr (access_token response))] /\
  wire w'
  = wire w ++ [CallLogin {| login_email := email;
                            login_password := password |} (Some 10)] /\
  stats (self w') = incr Login_success (stats (self w)) /\
  created_users (self w') = created_users (self w) /\
  env w' = e.
Proof.
  unfold connected; intros Hc Hr; cbv zeta.
  rewrite login_user_eq; cbv zeta.
  destruct (stub (self w)); [|discriminate].
  rewrite Hr. repeat split.
Qed.

(** *** The figures of the rate-limit tests *)

(** A call of [register_user] that returns has sent one request and
    counted itself once; the record tells which counter. *)
Lemma register_user_Ok index w d w' :
  register_user index w = (Ok d, w') ->
  exists k request,
    self w' = set_stats (incr k (stats (self w))) (self w) /\
    wire w' = wire w ++ [CallRegister request (Some 10)] /\
    stdout w' = stdout w /\
    ((k = Register_success /\ exists response, d = registered request response)
     \/ (k = Register_rate_limited /\ exists text, d = refused true text)
     \/ (k = Register_failed /\ exists text, d = refused false text)).
Proof.
  rewrite register_user_eq.
  destruct (register_request index (rng w)) as [request g]; cbv zeta.
  destruct (stub (self w)); [|discriminate].
  destruct (remote_Register request (Some 10) (env w))
    as [[response|[code text| |class text]] e]; try discriminate.
  - intros [= <- <-]. exists Register_success, request.
    repeat split. left. split; [reflexivity|now exists response].
  - destruct (code_eqb code RESOURCE_EXHAUSTED); intros [= <- <-].
    + exists Register_rate_limited, request.
      repeat split. right; left. split; [reflexivity|now exists text].
    + exists Register_failed, request.
      repeat split. right; right. split; [reflexivity|now exists text].
Qed.

Lemma login_user_Ok email password w d w' :
  login_user email password w = (Ok d, w') ->
  exists k,
    self w' = set_stats (incr k (stats (self w))) (self w) /\
    wire w'
    = wire w ++ [CallLogin {| login_email := email;
                              login_password := password |} (Some 10)] /\
    stdout w' = stdout w /\
    ((k = Login_success /\ exists response, d = logged_in response)
     \/ (k = Login_rate_limited /\ exists text, d = refused true text)
     \/ (k = Login_failed /\ exists text, d = refused false text)).
Proof.
  rewrite login_user_eq; cbv zeta.
  destruct (stub (self w)); [|discriminate].
  destruct (remote_Login _ (Some 10) (env w))
    as [[response|[code text| |class text]] e]; try discriminate.
  - intros [= <- <-]. exists Login_success.
    repeat split. left. split; [reflexivity|now exists response].
  - destruct (code_eqb code RESOURCE_EXHAUSTED); intros [= <- <-].
    + exists Login_rate_limited.
      repeat split. right; left. split; [reflexivity|now exists text].
    + exists Login_failed.
      repeat split. right; right. split; [reflexivity|now exists text].
Qed.

Lemma time_sleep_Ok d w u w' :
  time_sleep d w = (Ok u, w') ->
  self w' = self w /\ wire w' = wire w /\ stdout w' = stdout w.
Proof.
  unfold time_sleep. destruct (clock_sleep d (env w)) as [[|] e];
    [discriminate|]. intros [= _ <-]. repeat split.
Qed.

Lemma length_range n : List.length (range n) = Z.to_nat n.
Proof. unfold range. now rewrite length_map, length_seq. Qed.

(** X3.  When [test_rate_limiting_register] returns, it has sent exactly
    [attempts] Register requests (none when [attempts] is negative), and
    the two figures it prints last are the growth of [register_success]
    and of [register_rate_limited]; the attempts that failed otherwise are
    counted in [register_failed] and appear in no figure.  The verdict
    says "working" exactly when at least one attempt was rate limited. *)
Theorem register_test_reports_counters attempts w :
  fst (test_rate_limiting_register attempts w) = Ok tt ->
  let w' := snd (test_rate_limiting_register attempts w) in
  let grown k := count k (stats (self w')) - count k (stats (self w)) in
  List.length (wire w') = (List.length (wire w) + Z.to_nat attempts)%nat /\
  grown Register_success + grown Register_failed
  + grown Register_rate_limited = Z.of_nat (Z.to_nat attempts) /\
  (forall k, In k [Login_success; Login_failed; Login_rate_limited] ->
             grown k = 0) /\
  exists out,
    stdout w'
    = out ++ [MTestResults OpRegister (grown Register_success)
                (grown Register_rate_limited) None;
              MRateLimitVerdict (0 <? grown Register_rate_limited)].
Proof.
  destruct (test_rate_limiting_register attempts w) as [r w'] eqn:H.
  cbn [fst snd]. intros ->. cbv zeta.
  unfold test_rate_limiting_register in H.
  apply bind_Ok in H as (u0 & w0 & H0 & H). injection H0 as _ <-.
  apply bind_Ok in H as ([rl sc] & w1 & H1 & H).
  unfold bind, print in H. injection H as <-.
  match type of H1 with
  | for_ _ ?b _ _ = _ => set (body := b) in H1
  end.
  assert (L : forall xs rl0 sc0 v rl' sc' v',
             for_ xs body (rl0, sc0) v = (Ok (rl', sc'), v') ->
             List.length (wire v')
             = (List.length (wire v) + List.length xs)%nat /\
             register_success (stats (self v'))
             = register_success (stats (self v)) + (sc' - sc0) /\
             register_rate_limited (stats (self v'))
             = register_rate_limited (stats (self v)) + (rl' - rl0) /\
             register_failed (stats (self v'))
             = register_failed (stats (self v))
               + (Z.of_nat (List.length xs) - (sc' - sc0) - (rl' - rl0)) /\
             login_success (stats (self v')) = login_success (stats (self v))
             /\ login_failed (stats (self v')) = login_failed (stats (self v))
             /\ login_rate_limited (stats (self v'))
                = login_rate_limited (stats (self v))).
  { induction xs as [|x xs IH]; intros rl0 sc0 v rl' sc' v' E; simpl in E.
    - injection E as <- <- <-. simpl. repeat split; lia.
    - apply bind_Ok in E as ([rl1 sc1] & v1 & E1 & E).
      specialize (IH _ _ _ _ _ _ E). clear E.
      unfold body in E1.
      apply bind_Ok in E1 as (result & va & Ea & E1).
      apply register_user_Ok in Ea
        as (k & request & Hself & Hwire & Hout & Hk).
      apply bind_Ok in E1 as (counts & vb & Eb & E1).
      apply bind_Ok in E1 as (u & vc & Ec & E1).
      apply time_sleep_Ok in Ec as (Hcs & Hcw & _).
      injection E1 as -> <-.
      rewrite Hcs, Hcw in IH. simpl List.length. rewrite Nat2Z.inj_succ.
      destruct Hk as [[-> [response ->]]|[[-> [text ->]]|[-> [text ->]]]];
        cbn in Eb; injection Eb as <- <- <-;
        cbn [self wire add_stdout] in IH; rewrite Hself, Hwire in IH;
        rewrite length_app in IH; cbn in IH;
        destruct IH as (? & ? & ? & ? & ? & ? & ?);
        repeat split; lia. }
  apply L in H1. clear L body. rewrite length_range in H1.
  cbn [self wire add_stdout stdout] in H1 |- *.
  destruct H1 as (Hw & Hs & Hr & Hf & Hls & Hlf & Hlr).
  repeat split.
  - exact Hw.
  - cbn [count]. lia.
  - intros k [<-|[<-|[<-|[]]]]; cbn [count]; lia.
  - exists (stdout w1). rewrite <- app_assoc. cbn [app count].
    replace (register_success (stats (self w1))
             - register_success (stats (self w))) with sc by lia.
    replace (register_rate_limited (stats (self w1))
             - register_rate_limited (stats (self w))) with rl by lia.
    reflexivity.
Qed.

(** The loop of the login test, for a test user that has an email and a
    password. *)
Lemma login_attempts_Ok test_user email password attempts w u w' :
  dict_get "email" test_user = Some (VStr email) ->
  dict_get "password" test_user = Some (VStr password) ->
  login_attempts test_user attempts w = (Ok u, w') ->
  let grown k := count k (stats (self w')) - count k (stats (self w)) in
  wire w'
  = wire w
    ++ repeat (CallLogin {| login_email := email;
                            login_password := password |} (Some 10))
         (Z.to_nat attempts) /\
  created_users (self w') = created_users (self w) /\
  (forall k, In k [Register_success; Register_failed; Register_rate_limited]
             -> grown k = 0) /\
  grown Login_success + grown Login_failed + grown Login_rate_limited
  = Z.of_nat (Z.to_nat attempts) /\
  exists out,
    stdout w'
    = out ++ [MTestResults OpLogin (grown Login_success)
                (grown Login_rate_limited) (Some (grown Login_failed));
              MRateLimitVerdict (0 <? grown Login_rate_limited)].
Proof.
  intros He Hp H. cbv zeta.
  unfold login_attempts in H.
  apply bind_Ok in H as ([[rl sc] fc] & w1 & H1 & H).
  unfold bind, print in H. injection H as _ <-.
  match type of H1 with
  | for_ _ ?b _ _ = _ => set (body := b) in H1
  end.
  assert (L : forall xs rl0 sc0 fc0 v rl' sc' fc' v',
             for_ xs body (rl0, sc0, fc0) v = (Ok (rl', sc', fc'), v') ->
             wire v'
             = wire v
               ++ repeat (CallLogin {| login_email := email;
                                       login_password := password |}
                            (Some 10)) (List.length xs) /\
             created_users (self v') = created_users (self v) /\
             login_success (stats (self v'))
             = login_success (stats (self v)) + (sc' - sc0) /\
             login_rate_limited (stats (self v'))
             = login_rate_limited (stats (self v)) + (rl' - rl0) /\
             login_failed (stats (self v'))
             = login_failed (stats (self v)) + (fc' - fc0) /\
             (sc' - sc0) + (rl' - rl0) + (fc' - fc0)
             = Z.of_nat (List.length xs) /\
             register_success (stats (self v'))
             = register_success (stats (self v)) /\
             register_failed (stats (self v'))
             = register_failed (stats (self v)) /\
             register_rate_limited (stats (self v'))
             = register_rate_limited (stats (self v))).
  { induction xs as [|x xs IH]; intros rl0 sc0 fc0 v rl' sc' fc' v' E;
      simpl in E.
    - injection E as <- <- <- <-. simpl. rewrite app_nil_r.
      repeat split; lia.
    - apply bind_Ok in E as ([[rl1 sc1] fc1] & v1 & E1 & E).
      specialize (IH _ _ _ _ _ _ _ _ E). clear E.
      unfold body in E1.
      apply bind_Ok in E1 as (a1 & v2 & E2 & E1).
      unfold getitem in E2; rewrite He in E2; injection E2 as <- <-.
      apply bind_Ok in E1 as (a2 & v3 & E3 & E1).
      unfold getitem in E3; rewrite Hp in E3; injection E3 as <- <-.
      apply bind_Ok in E1 as (a3 & v4 & E4 & E1). injection E4 as <- <-.
      apply bind_Ok in E1 as (a4 & v5 & E5 & E1). injection E5 as <- <-.
      apply bind_Ok in E1 as (result & va & Ea & E1).
      apply login_user_Ok in Ea as (k & Hself & Hwire & Hout & Hk).
      apply bind_Ok in E1 as (counts & vb & Eb & E1).
      apply bind_Ok in E1 as (u1 & vc & Ec & E1).
      apply time_sleep_Ok in Ec as (Hcs & Hcw & _).
      injection E1 as -> <-.
      rewrite Hcs, Hcw in IH. simpl List.length. rewrite Nat2Z.inj_succ.
      destruct Hk as [[-> [response ->]]|[[-> [text ->]]|[-> [text ->]]]];
        cbn in Eb; injection Eb as <- <- <- <-;
        cbn [self wire add_stdout] in IH; rewrite Hself, Hwire in IH;
        rewrite <- app_assoc in IH; cbn in IH;
        destruct IH as (? & ? & ? & ? & ? & ? & ? & ? & ?);
        repeat split; solve [assumption | lia]. }
  apply L in H1. clear L body. rewrite length_range in H1.
  cbn [self wire add_stdout stdout] in H1 |- *.
  destruct H1 as (Hw & Hc & Hs & Hr & Hf & Hsum & Hrs & Hrf & Hrr).
  repeat split.
  - exact Hw.
  - exact Hc.
  - intros k [<-|[<-|[<-|[]]]]; cbn [count]; lia.
  - cbn [count]. lia.
  - exists (stdout w1). rewrite <- app_assoc. cbn [app count].
    replace (login_success (stats (self w1))
             - login_success (stats (self w))) with sc by lia.
    replace (login_rate_limited (stats (self w1))
             - login_rate_limited (stats (self w))) with rl by lia.
    replace (login_failed (stats (self w1))
             - login_failed (stats (self w))) with fc by lia.
    reflexivity.
Qed.

(** X4.  With a user already in [created_users], the login test registers
    nobody: when it returns it has sent exactly [attempts] Login requests,
    all with the email and password of the first recorded user and
    [timeout=10], and the three figures it prints are the growth of
    [login_success], [login_rate_limited] and [login_failed], which add up
    to the number of attempts. *)
Theorem login_test_uses_first_created_user
  attempts w test_user others email password :
  created_users (self w) = test_user :: others ->
  dict_get "email" test_user = Some (VStr email) ->
  dict_get "password" test_user = Some (VStr password) ->
  fst (test_rate_limiting_login attempts w) = Ok tt ->
  let w' := snd (test_rate_limiting_login attempts w) in
  let grown k := count k (stats (self w')) - count k (stats (self w)) in
  wire w'
  = wire w
    ++ repeat (CallLogin {| login_email := email;
                            login_password := password |} (Some 10))
         (Z.to_nat attempts) /\
  (forall k, In k [Register_success; Register_failed; Register_rate_limited]
             -> grown k = 0) /\
  grown Login_success + grown Login_failed + grown Login_rate_limited
  = Z.of_nat (Z.to_nat attempts) /\
  exists out,
    stdout w'
    = out ++ [MTestResults OpLogin (grown Login_success)
                (grown Login_rate_limited) (Some (grown Login_failed));
              MRateLimitVerdict (0 <? grown Login_rate_limited)].
Proof.
  intros Hcu He Hp.
  destruct (test_rate_limiting_login attempts w) as [r w'] eqn:H.
  cbn [fst snd]. intros ->.
  unfold test_rate_limiting_login in H.
  apply bind_Ok in H as (u0 & w0 & H0 & H). injection H0 as _ <-.
  apply bind_Ok in H as (t & w1 & H1 & H). injection H1 as <- <-.
  cbn [self add_stdout] in H. rewrite Hcu in H.
  apply (login_attempts_Ok test_user email password) in H; [|assumption..].
  cbv zeta in H |- *. cbn [self wire add_stdout] in H.
  destruct H as (Hw & _ & Hr & Hs & Hout). repeat split; assumption.
Qed.

(** X5.  With [created_users] empty, the login test first registers user
    999999; when that registration is accepted and the test returns, the
    requests sent are that Register request followed by [attempts] Login
    requests that carry exactly the email and the password just
    registered.  The test user is counted in [register_success] and is not
    added to [created_users]. *)
Theorem login_test_registers_its_own_user
  attempts w request g response e :
  created_users (self w) = [] ->
  connected (self w) = true ->
  register_request (IdxInt 999999) (rng w) = (request, g) ->
  remote_Register request (Some 10) (env w) = (Ok response, e) ->
  fst (test_rate_limiting_login attempts w) = Ok tt ->
  let w' := snd (test_rate_limiting_login attempts w) in
  wire w'
  = wire w
    ++ CallRegister request (Some 10)
       :: repeat (CallLogin {| login_email := req_email request;
                               login_password := req_password request |}
                    (Some 10)) (Z.to_nat attempts) /\
  register_success (stats (self w'))
  = register_success (stats (self w)) + 1 /\
  login_success (stats (self w')) + login_failed (stats (self w'))
  + login_rate_limited (stats (self w'))
  = login_success (stats (self w)) + login_failed (stats (self w))
    + login_rate_limited (stats (self w)) + Z.of_nat (Z.to_nat attempts) /\
  created_users (self w') = [].
Proof.
  unfold connected. intros Hcu Hc Hq Hr.
  destruct (test_rate_limiting_login attempts w) as [r w'] eqn:H.
  cbn [fst snd]. intros ->.
  unfold test_rate_limiting_login in H.
  apply bind_Ok in H as (u0 & w0 & H0 & H). injection H0 as _ <-.
  apply bind_Ok in H as (t & w1 & H1 & H). injection H1 as <- <-.
  cbn [self add_stdout] in H. rewrite Hcu in H.
  apply bind_Ok in H as (u2 & w2 & H2 & H). injection H2 as _ <-.
  apply bind_Ok in H as (test_user & w3 & H3 & H).
  rewrite register_user_eq in H3.
  cbn [rng self env add_stdout] in H3. rewrite Hq in H3. cbv zeta in H3.
  destruct (stub (self w)); [|discriminate].
  rewrite Hr in H3. injection H3 as <- <-.
  apply bind_Ok in H as (success & w4 & H4 & H). injection H4 as <- <-.
  cbn [truthy negb] in H.
  apply (login_attempts_Ok _ (req_email request) (req_password request))
    in H; [|reflexivity..].
  cbv zeta in H. destruct H as (Hw & Hcr & Hreg & Hsum & _).
  specialize (Hreg Register_success (or_introl eq_refl)).
  cbn in Hw, Hcr, Hreg, Hsum.
  rewrite Hw, Hcr, Hcu, <- app_assoc. cbn [app].
  repeat split; lia.
Qed.

(** X6.  With [created_users] empty and the registration of the test user
    refused with an RPC error, the login test gives up: it returns after
    the one Register request, sends no Login request, leaves the three
    login counters as they were and prints that the test is skipped. *)
Theorem login_test_skipped_without_user attempts w code text :
  created_users (self w) = [] ->
  connected (self w) = true ->
  remote_answer (RegisterUser (IdxInt 999999)) w
  = Raise (RpcError code text) ->
  let w' := snd (test_rate_limiting_login attempts w) in
  fst (test_rate_limiting_login attempts w) = Ok tt /\
  wire w'
  = wire w ++ [CallRegister
                 (fst (register_request (IdxInt 999999) (rng w)))
                 (Some 10)] /\
  (forall k, In k [Login_success; Login_failed; Login_rate_limited] ->
             count k (stats (self w')) = count k (stats (self w))) /\
  stdout w'
  = stdout w ++ [MTestHeader OpLogin attempts; MCreatingTestUser;
                 MSkippingLoginTest].
Proof.
  unfold connected, remote_answer. intros Hcu Hc Hr. cbv zeta.
  unfold test_rate_limiting_login, bind, print, get_self.
  cbn [self add_stdout]. rewrite Hcu.
  rewrite register_user_eq. cbn [rng self env add_stdout].
  destruct (register_request (IdxInt 999999) (rng w)) as [request g].
  cbn [fst] in Hr |- *. cbv zeta.
  destruct (stub (self w)); [|discriminate].
  destruct (remote_Register request (Some 10) (env w))
    as [[response|[code' text'| |class text']] e]; cbn [fst] in Hr;
    try discriminate.
  destruct (code_eqb code' RESOURCE_EXHAUSTED);
    cbn [bind getitem dict_get refused String.eqb Ascii.eqb Bool.eqb ret
         truthy negb print fst snd counted self set_self set_stats stats
         wire stdout add_stdout set_env add_wire set_rng];
    rewrite <- ?app_assoc;
    (split; [reflexivity|]); (split; [reflexivity|]);
    (split; [|reflexivity]);
    intros k [<-|[<-|[<-|[]]]]; reflexivity.
Qed.

(** *** The connection *)

Lemma same_connection_refl t : same_connection t t.
Proof. split; reflexivity. Qed.

Lemma same_connection_trans t1 t2 t3 :
  same_connection t1 t2 -> same_connection t2 t3 -> same_connection t1 t3.
Proof. unfold same_connection. intros [] []. split; congruence. Qed.

Ltac connection :=
  solve [ exact same_connection_refl | exact same_connection_trans
        | intros; split; reflexivity ].


(** *** Every task of a batch runs once *)

Lemma bind_inv A B (m : M A) (k : A -> M B) w r w' :
  bind m k w = (r, w') ->
  (exists a w1, m w = (Ok a, w1) /\ k a w1 = (r, w')) \/
  (exists e, m w = (Raise e, w') /\ r = Raise e).
Proof.
  unfold bind. destruct (m w) as [[a|e] w1]; [eauto|].
  intros [= <- <-]. right; eauto.
Qed.

Lemma attempt_inv A (m : M A) w r w' :
  attempt m w = (r, w') -> exists r0, r = Ok r0 /\ m w = (r0, w').
Proof. unfold attempt. destruct (m w). intros [= <- <-]. eauto. Qed.

Lemma time_time_inv w r w' :
  time_time w = (r, w') ->
  exists t, r = Ok t /\ self w' = self w /\ wire w' = wire w /\
            stdout w' = stdout w.
Proof.
  unfold time_time. destruct (clock_time (env w)) as [t e].
  intros [= <- <-]. now exists t.
Qed.

Lemma register_user_sends index w r w' :
  connected (self w) = true ->
  register_user index w = (r, w') ->
  exists request,
    wire w' = wire w ++ [CallRegister request (Some 10)] /\
    req_username request = "user" +++ format_index index /\
    connected (self w') = true.
Proof.
  unfold connected. intros Hc. rewrite register_user_eq.
  unfold register_request.
  destruct (choices _ 6 (rng w)) as [suffix g1].
  destruct (choices _ 12 g1) as [cs g2]. cbv zeta.
  destruct (stub (self w)) eqn:Hs; [|discriminate].
  destruct (remote_Register _ (Some 10) (env w))
    as [[response|[code text| |class text]] e];
    try destruct (code_eqb code RESOURCE_EXHAUSTED);
    intros [= <- <-]; eexists; cbn; rewrite Hs; repeat split.
Qed.

Lemma shutdown_sends pending : forall w r w',
  connected (self w) = true ->
  shutdown pending w = (r, w') ->
  exists cs,
    wire w' = wire w ++ cs /\
    usernames_sent cs = map (fun i => "user" +++ str_int i) pending /\
    List.length cs = List.length pending /\
    connected (self w') = true.
Proof.
  unfold shutdown.
  induction pending as [|p pending IH]; intros w r w' Hc H; simpl in H.
  - injection H as _ <-. exists []. now rewrite app_nil_r.
  - apply bind_inv in H as [(u & w1 & H1 & H)|(e & H1 & _)].
    + destruct u.
      apply bind_inv in H1 as [(o & w2 & H2 & H1)|(e & H2 & _)].
      * apply attempt_inv in H2 as (r0 & _ & H2).
        apply (register_user_sends _ _ _ _ Hc) in H2
          as (request & Hw & Hu & Hc2).
        injection H1 as <-.
        destruct (IH _ _ _ Hc2 H) as (cs & Hw' & Hus & Hl & Hc').
        exists (CallRegister request (Some 10) :: cs).
        rewrite Hw', Hw, <- app_assoc. simpl. rewrite Hu, Hus, Hl.
        repeat split. exact Hc'.
      * apply attempt_inv in H2 as (r0 & [=] & _).
    + apply bind_inv in H1 as [(o & w2 & H2 & H1)|(e' & H2 & _)].
      * discriminate.
      * apply attempt_inv in H2 as (r0 & [=] & _).
Qed.

Lemma shutdown_never_raises pending : forall w e w',
  shutdown pending w <> (Raise e, w').
Proof.
  unfold shutdown.
  induction pending as [|p pending IH]; intros w e w' H; simpl in H;
    [discriminate|].
  apply bind_inv in H as [(u & w1 & H1 & H)|(e0 & H1 & _)].
  - destruct u. now apply IH in H.
  - apply bind_inv in H1 as [(o & w2 & H2 & H1)|(e1 & H2 & _)];
      [discriminate|apply attempt_inv in H2 as (? & [=] & _)].
Qed.

Lemma collect_one_quiet n start_time i outcome w r w' :
  collect_one n start_time i outcome w = (r, w') ->
  wire w' = wire w /\ stub (self w') = stub (self w).
Proof.
  unfold collect_one, bind, future_result, getitem, modify_self, ret, raise,
    time_time, check_division, print.
  destruct outcome as [d|e]; [|now intros [= _ <-]].
  destruct (dict_get "success" d) as [v|]; [|now intros [= _ <-]].
  destruct (truthy (Some v)); destruct ((i + 1) mod 1000 =? 0);
    cbn [env set_self]; try destruct (clock_time (env w)) as [t e];
    try destruct (t - start_time =? 0);
    intros [= _ <-]; split; reflexivity.
Qed.

Lemma taken_out A (d : A) (l : list A) pos :
  (pos < List.length l)%nat ->
  Permutation (nth pos l d :: firstn pos l ++ skipn (S pos) l) l /\
  List.length (firstn pos l ++ skipn (S pos) l) = pred (List.length l).
Proof.
  revert pos; induction l as [|a l IH]; intros pos Hpos; simpl in Hpos;
    [lia|].
  destruct pos as [|pos]; [split; reflexivity|].
  destruct (IH pos ltac:(lia)) as [IHp IHl].
  split.
  - simpl. etransitivity; [apply perm_swap|]. now constructor.
  - simpl in *. rewrite IHl. lia.
Qed.

Lemma collect_sends fuel n start_time : forall pending i w r w',
  fuel = List.length pending ->
  connected (self w) = true ->
  collect fuel n start_time pending i w = (r, w') ->
  exists cs,
    wire w' = wire w ++ cs /\
    Permutation (usernames_sent cs)
      (map (fun i => "user" +++ str_int i) pending) /\
    List.length cs = List.length pending.
Proof.
  induction fuel as [|fuel IH]; intros pending i w r w' Hf Hc H.
  - destruct pending; [|discriminate]. injection H as _ <-.
    exists []. now rewrite app_nil_r.
  - destruct pending as [|p pending]; [discriminate|].
    cbn [collect] in H.
    apply bind_inv in H as [(waited & w1 & H1 & H)|(e & H1 & _)];
      [|apply attempt_inv in H1 as (? & [=] & _)].
    apply attempt_inv in H1 as (r1 & [= ->] & H1).
    assert (E1 : self w1 = self w /\ wire w1 = wire w).
    { unfold next_completed in H1.
      destruct (pool_next _ (env w)); now injection H1 as _ <-. }
    destruct E1 as [Es1 Ew1]. rewrite <- Es1 in Hc. rewrite <- Ew1.
    clear Es1 Ew1 H1.
    destruct r1 as [k|e].
    + set (pos := (k mod List.length (p :: pending))%nat) in H.
      assert (Hpos : (pos < List.length (p :: pending))%nat)
        by (apply Nat.mod_upper_bound; discriminate).
      destruct (taken_out Z 0 (p :: pending) pos Hpos) as [Hperm Hlen].
      apply bind_inv in H as [(outcome & w2 & H2 & H)|(e & H2 & _)];
        [|apply attempt_inv in H2 as (? & [=] & _)].
      apply attempt_inv in H2 as (r2 & [= ->] & H2).
      apply (register_user_sends _ _ _ _ Hc) in H2
        as (request & Hw2 & Hu2 & Hc2).
      apply bind_inv in H as [(turn & w3 & H3 & H)|(e & H3 & _)];
        [|apply attempt_inv in H3 as (? & [=] & _)].
      apply attempt_inv in H3 as (r3 & [= ->] & H3).
      apply collect_one_quiet in H3 as [Hw3 Hs3].
      assert (Hc3 : connected (self w3) = true)
        by (unfold connected in *; now rewrite Hs3).
      assert (Hrest : exists cs,
                 wire w' = wire w3 ++ cs /\
                 Permutation (usernames_sent cs)
                   (map (fun i => "user" +++ str_int i)
                      (firstn pos (p :: pending)
                       ++ skipn (S pos) (p :: pending))) /\
                 List.length cs
                 = List.length (firstn pos (p :: pending)
                                ++ skipn (S pos) (p :: pending))).
      { destruct r3 as [u|e].
        - eapply IH; [|exact Hc3|exact H].
          rewrite Hlen. simpl in Hf |- *. lia.
        - apply bind_inv in H as [(u & w4 & H4 & H)|(e' & H4 & _)].
          + injection H as _ <-.
            apply (shutdown_sends _ _ _ _ Hc3) in H4
              as (cs & Hw & Hus & Hl & _).
            exists cs. rewrite Hus.
            split; [exact Hw|split; [reflexivity|exact Hl]].
          + now apply shutdown_never_raises in H4. }
      destruct Hrest as (cs & Hw & Hp & Hl).
      exists (CallRegister request (Some 10) :: cs).
      rewrite Hw, Hw3, Hw2, <- app_assoc. split; [reflexivity|].
      split.
      * simpl usernames_sent. rewrite Hu2.
        etransitivity; [apply perm_skip, Hp|].
        exact (Permutation_map (fun i => "user" +++ str_int i) Hperm).
      * simpl List.length. rewrite Hl, Hlen. reflexivity.
    + apply bind_inv in H as [(u & w4 & H4 & H)|(e' & H4 & _)].
      * injection H as _ <-.
        apply (shutdown_sends _ _ _ _ Hc) in H4 as (cs & Hw & Hus & Hl & _).
        exists cs. rewrite Hus.
            split; [exact Hw|split; [reflexivity|exact Hl]].
      * now apply shutdown_never_raises in H4.
Qed.

Lemma submit_loop n xs : forall acc (w : World),
  exists w1 : World,
    for_ xs
      (fun i futures =>
         (if (i + 1) mod 1000 =? 0 then print (MSubmitted (i + 1) n)
          else ret tt) ;;
         ret (futures ++ [i]))
      acc w
    = (Ok (acc ++ xs), w1) /\
    self w1 = self w /\ wire w1 = wire w.
Proof.
  induction xs as [|x xs IH]; intros acc w; simpl.
  - exists w. now rewrite app_nil_r.
  - unfold bind at 1. unfold bind at 1.
    destruct ((x + 1) mod 1000 =? 0); cbn [print ret].
    + destruct (IH (acc ++ [x]) (add_stdout (MSubmitted (x + 1) n) w))
        as (w1 & E & Hs & Hw).
      exists w1. rewrite <- app_assoc in E. now rewrite E.
    + destruct (IH (acc ++ [x]) w) as (w1 & E & Hs & Hw).
      exists w1. rewrite <- app_assoc in E. now rewrite E.
Qed.

Lemma submit_all_run n w :
  exists w1,
    submit_all n w = (Ok (range n), w1) /\
    self w1 = self w /\ wire w1 = wire w.
Proof. apply (submit_loop n (range n) [] w). Qed.


(** X9.  [create_users_batch] divides by the time it measured without
    looking at it ([print_summary] does look): it never returns with a
    [total_time] of zero.  When it returns, its last two messages are the
    completion banner with the measured time and the statistics block with
    the counters as they are at that moment. *)
Theorem batch_returns_only_with_time_measured batch_size max_workers w :
  fst (create_users_batch batch_size max_workers w) = Ok tt ->
  let w' := snd (create_users_batch batch_size max_workers w) in
  total_time (stats (self w')) <> 0 /\
  exists out,
    stdout w'
    = out ++ [MCreationComplete (total_time (stats (self w')));
              MCreationStats (num_users (self w)) (stats (self w'))].
Proof.
  destruct (create_users_batch batch_size max_workers w) as [r w'] eqn:H.
  cbn [fst snd]. intros ->. unfold create_users_batch in H.
  apply bind_Ok in H as (t0 & w0 & H0 & H). injection H0 as <- <-.
  do 5 (apply bind_Ok in H as (? & ? & _ & H)).
  apply bind_Ok in H as (u6 & w6 & _ & H).
  apply bind_Ok in H as (t7 & w7 & H7 & H). injection H7 as <- <-.
  apply bind_Ok in H as (u8 & w8 & H8 & H). injection H8 as _ <-.
  apply bind_Ok in H as (u9 & w9 & H9 & H).
  unfold check_division in H9.
  destruct (total_time (stats (self w6)) =? 0) eqn:E; [discriminate|].
  injection H9 as _ <-. injection H as <-.
  cbn [self stdout add_stdout]. split; [now apply Z.eqb_neq|].
  exists (stdout w6). now rewrite <- app_assoc.
Qed.

(** *** [created_users] never runs ahead of the successes *)

Lemma successes_cover_created_refl t : successes_cover_created t t.
Proof.
  exists []. rewrite app_nil_r. repeat split; [simpl; lia|constructor].
Qed.

Lemma successes_cover_created_trans t1 t2 t3 :
  successes_cover_created t1 t2 -> successes_cover_created t2 t3 ->
  successes_cover_created t1 t3.
Proof.
  intros (a1 & H1 & L1 & F1) (a2 & H2 & L2 & F2).
  exists (a1 ++ a2). rewrite H2, H1, app_assoc, length_app.
  repeat split; [lia|now apply Forall_app].
Qed.

Lemma successes_cover_created_stats s t :
  register_success (stats t) <= register_success s ->
  successes_cover_created t (set_stats s t).
Proof.
  intros H. exists []. rewrite app_nil_r.
  repeat split; [simpl; lia|constructor].
Qed.

Lemma successes_cover_created_bump c t :
  successes_cover_created t (set_stats (incr c (stats t)) t).
Proof. apply successes_cover_created_stats. destruct c; simpl; lia. Qed.

Lemma successes_cover_created_total_time x t :
  successes_cover_created t (set_stats (set_total_time x (stats t)) t).
Proof. apply successes_cover_created_stats. simpl; lia. Qed.

Lemma successes_cover_created_connect c s t :
  successes_cover_created t (set_connection c s t).
Proof.
  exists []. rewrite app_nil_r. repeat split; [simpl; lia|constructor].
Qed.

Ltac cover :=
  solve [ exact successes_cover_created_refl
        | exact successes_cover_created_trans
        | exact successes_cover_created_bump
        | exact successes_cover_created_total_time ].

Lemma collect_one_any n start_time i outcome w r w' :
  collect_one n start_time i outcome w = (r, w') ->
  self w' = self w \/
  exists d v,
    outcome = Ok d /\ dict_get "success" d = Some v /\
    truthy (Some v) = true /\
    self w' = set_created_users (created_users (self w) ++ [d]) (self w).
Proof.
  unfold collect_one, bind, future_result, getitem, modify_self, ret, raise,
    time_time, check_division, print.
  destruct outcome as [d|e]; [|intros [= _ <-]; now left].
  destruct (dict_get "success" d) as [v|] eqn:Hv;
    [|intros [= _ <-]; now left].
  destruct (truthy (Some v)) eqn:Ht; destruct ((i + 1) mod 1000 =? 0);
    cbn [env set_self]; try destruct (clock_time (env w)) as [t e];
    try destruct (t - start_time =? 0);
    intros [= _ <-]; solve [now left | right; now exists d, v].
Qed.

Lemma collect_covers fuel n start_time : forall pending i w r w',
  collect fuel n start_time pending i w = (r, w') ->
  successes_cover_created (self w) (self w').
Proof.
  induction fuel as [|fuel IH]; intros pending i w r w' H.
  - simpl in H. injection H as _ <-. apply successes_cover_created_refl.
  - destruct pending as [|p pending];
      [injection H as _ <-; apply successes_cover_created_refl|].
    cbn [collect] in H.
    apply bind_inv in H as [(waited & w1 & H1 & H)|(e & H1 & _)];
      [|apply attempt_inv in H1 as (? & [=] & _)].
    apply attempt_inv in H1 as (r1 & [= ->] & H1).
    assert (E1 : self w1 = self w).
    { unfold next_completed in H1.
      destruct (pool_next _ (env w)); now injection H1 as _ <-. }
    rewrite <- E1. clear E1 H1.
    assert (Hshut : forall l v r0 v',
               (shutdown l ;; raise r0) v = (r, v') ->
               successes_cover_created (self v) (self v')).
    { intros l v r0 v' E.
      apply bind_inv in E as [(u & v1 & E1 & E)|(e' & E1 & _)];
        [|now apply shutdown_never_raises in E1].
      injection E as _ <-.
      pose proof (always_shutdown successes_cover_created) as A.
      specialize (A ltac:(cover) ltac:(cover) ltac:(cover) l v).
      now rewrite E1 in A. }
    destruct r1 as [k|e]; [|now apply Hshut in H].
    apply bind_inv in H as [(outcome & w2 & H2 & H)|(e & H2 & _)];
      [|apply attempt_inv in H2 as (? & [=] & _)].
    apply attempt_inv in H2 as (r2 & [= ->] & H2).
    pose proof (register_user_entry
      (IdxInt (nth (k mod List.length (p :: pending)) (p :: pending) 0)) w1)
      as Hreg.
    rewrite H2 in Hreg. clear H2.
    apply bind_inv in H as [(turn & w3 & H3 & H)|(e & H3 & _)];
      [|apply attempt_inv in H3 as (? & [=] & _)].
    apply attempt_inv in H3 as (r3 & [= ->] & H3).
    apply collect_one_any in H3.
    assert (Hstep : successes_cover_created (self w1) (self w3)).
    { destruct r2 as [d|e].
      - destruct Hreg as [Hcr [(Hs & Hu & Hn)|(Hs & Hn)]].
        + destruct H3 as [->|(d' & v & [= <-] & _ & _ & ->)].
          * exists []. rewrite app_nil_r.
            repeat split; [exact Hcr|simpl; lia|constructor].
          * exists [d]. cbn [created_users set_created_users stats].
            rewrite Hcr, Hn. repeat split; [simpl; lia|now constructor].
        + destruct H3 as [->|(d' & v & [= <-] & Hv & Ht & _)].
          * exists []. rewrite app_nil_r.
            repeat split; [exact Hcr|simpl; lia|constructor].
          * rewrite Hs in Hv. injection Hv as <-. discriminate.
      - destruct H3 as [->|(d' & v & [=] & _)].
        rewrite Hreg. apply successes_cover_created_refl. }
    eapply successes_cover_created_trans; [exact Hstep|].
    destruct r3 as [u|e]; [now apply IH in H|now apply Hshut in H].
Qed.

Lemma always_cover_create_users_batch batch_size max_workers :
  always successes_cover_created
    (create_users_batch batch_size max_workers).
Proof.
  intros w.
  destruct (create_users_batch batch_size max_workers w) as [r w'] eqn:H.
  cbn [snd]. unfold create_users_batch in H.
  apply bind_inv in H as [(t & w0 & H0 & H)|(e & [=] & _)].
  injection H0 as <- <-.
  apply bind_inv in H as [(u1 & w1 & H1 & H)|(e & [=] & _)].
  injection H1 as _ <-.
  apply bind_inv in H as [(start_time & w2 & H2 & H)|(e & H2 & _)];
    [|now apply time_time_inv in H2 as (? & [=] & _)].
  apply time_time_inv in H2 as (t2 & _ & Hs2 & _).
  destruct (submit_all_run (num_users (self w)) w2) as (w3 & E3 & Hs3 & _).
  apply bind_inv in H as [(futures & w3' & H3 & H)|(e & H3 & _)];
    [|rewrite E3 in H3; discriminate].
  rewrite E3 in H3. injection H3 as <- <-.
  assert (Hs : self w3 = self w) by (rewrite Hs3, Hs2; reflexivity).
  rewrite <- Hs.
  apply bind_inv in H as [(u4 & w4 & H4 & H)|(e & H4 & _)];
    [|now apply collect_covers in H4].
  apply collect_covers in H4.
  eapply successes_cover_created_trans; [exact H4|].
  apply bind_inv in H as [(now & w5 & H5 & H)|(e & H5 & _)];
    [|now apply time_time_inv in H5 as (? & [=] & _)].
  apply time_time_inv in H5 as (t5 & _ & Hs5 & _).
  rewrite <- Hs5.
  apply bind_inv in H as [(u6 & w6 & H6 & H)|(e & [=] & _)].
  injection H6 as _ <-.
  apply bind_inv in H as [(t7 & w7 & H7 & H)|(e & [=] & _)].
  injection H7 as _ <-.
  apply bind_inv in H as [(u8 & w8 & H8 & H)|(e & [=] & _)].
  injection H8 as _ <-.
  assert (Hend : self w'
                 = set_stats (set_total_time (now - start_time)
                                (stats (self w5))) (self w5)).
  { apply bind_inv in H as [(u9 & w9 & H9 & H)|(e & H9 & _)];
      unfold check_division in H9; destruct (_ =? 0);
      try discriminate; injection H9 as _ <-;
      [injection H as _ <-|]; reflexivity. }
  rewrite Hend. apply successes_cover_created_total_time.
Qed.

Lemma always_cover_main_body : always successes_cover_created main_body.
Proof.
  unfold main_body.
  apply always_bind; [cover|intros w; apply successes_cover_created_connect|].
  intros ?. apply always_bind;
    [cover|apply always_unchanged; [cover|auto with unchanged]|].
  intros ?. apply always_bind;
    [cover|apply always_test_rate_limiting_register; cover|].
  intros ?. apply always_bind;
    [cover|apply always_unchanged; [cover|auto with unchanged]|].
  intros ?. apply always_bind;
    [cover|apply always_unchanged; [cover|auto with unchanged]|].
  intros ?. apply always_bind;
    [cover|apply always_test_rate_limiting_login; cover|].
  intros ?. apply always_bind;
    [cover|apply always_unchanged; [cover|auto with unchanged]|].
  intros ?. apply always_bind;
    [cover|apply always_unchanged; [cover|auto with unchanged]|].
  intros user_input. apply always_bind; [cover| |].
  - destruct (says_yes user_input);
      [apply always_cover_create_users_batch
      |apply always_unchanged; [cover|auto with unchanged]].
  - intros ?. apply always_print_summary; cover.
Qed.


End Harness.

(** ** The theorems at work, and where the script departs from a first
    reading *)

Module Examples.

Import Mock.

(** Facts about a run on a given world: by running it. *)
Ltac run :=
  cbv zeta; repeat match goal with |- _ /\ _ => split end;
  vm_compute; reflexivity.

(** C1 at work: a Login refused with RESOURCE_EXHAUSTED. *)
Lemma rpc_error_classified_witness :
  let w := world (tester 1) (outside accept throttled (Line "no")) in
  let c := LoginUser "user0_abcdef@loadtest.com" "ghijklmnopqr" in
  fst (perform Register Login c w)
  = Ok [("success", VBool false); ("rate_limited", VBool true);
        ("error", VStr "rate limit exceeded")] /\
  login_rate_limited (stats (self (snd (perform Register Login c w)))) = 1 /\
  login_failed (stats (self (snd (perform Register Login c w)))) = 0.
Proof.
  cbv zeta.
  apply (proj1 (rpc_error_classified Env Register Login
           (LoginUser "user0_abcdef@loadtest.com" "ghijklmnopqr")
           (world (tester 1) (outside accept throttled (Line "no")))
           RESOURCE_EXHAUSTED "rate limit exceeded"
           eq_refl eq_refl)).
  reflexivity.
Defined.

(** C8 at work: registration number 7 against a service that accepts. *)
Lemma register_user_returns_record_witness :
  let w := world (tester 1) (outside accept token (Line "no")) in
  fst (register_user Register (IdxInt 7) w)
  = Ok [("success", VBool true);
        ("email", VStr "user7_abcdef@loadtest.com");
        ("password", VStr "ghijklmnopqr");
        ("username", VStr "user7");
        ("user_id", VStr "id1")].
Proof.
  cbv zeta.
  apply (register_user_returns_record Env Register (IdxInt 7)
           (world (tester 1) (outside accept token (Line "no")))
           (fst (register_request (IdxInt 7) (fun n => n)))
           (snd (register_request (IdxInt 7) (fun n => n)))
           {| user := {| id := "id1" |} |}
           (snd (Register (fst (register_request (IdxInt 7) (fun n => n)))
                   (Some 10) (outside accept token (Line "no"))))).
  - reflexivity.
  - reflexivity.
  - reflexivity.
Defined.

(** C9 at work: a refused Login moves [login_rate_limited] and nothing
    else. *)
Lemma completed_call_counts_once_witness :
  let w := world (tester 1) (outside accept throttled (Line "no")) in
  let c := LoginUser "user0_abcdef@loadtest.com" "ghijklmnopqr" in
  exists k,
    In k [Login_success; Login_failed; Login_rate_limited] /\
    count k (stats (self (snd (perform Register Login c w))))
    = count k (stats (self w)) + 1 /\
    (forall k', k' <> k ->
       count k' (stats (self (snd (perform Register Login c w))))
       = count k' (stats (self w))) /\
    total_time (stats (self (snd (perform Register Login c w))))
    = total_time (stats (self w)) /\
    created_users (self (snd (perform Register Login c w)))
    = created_users (self w).
Proof.
  cbv zeta.
  apply (completed_call_counts_once Env Register Login
           (LoginUser "user0_abcdef@loadtest.com" "ghijklmnopqr")
           (world (tester 1) (outside accept throttled (Line "no")))).
  - reflexivity.
  - right. exists RESOURCE_EXHAUSTED, "rate limit exceeded". reflexivity.
Defined.

(** C2 at work: five registrations, the fourth refused; each returns a
    record and the three counters add up to five. *)
Lemma attempts_add_up_witness :
  let w := world (tester 5) (outside every_fourth token (Line "no")) in
  let cs := map (fun i => RegisterUser (IdxInt i)) (range 5) in
  op_total OpRegister
    (stats (self (snd (call_each (map (perform Register Login) cs) w))))
  = 5.
Proof.
  cbv zeta.
  destruct (attempts_add_up Env Register Login OpRegister
              (map (fun i => RegisterUser (IdxInt i)) (range 5))
              (world (tester 5) (outside every_fourth token (Line "no")))
              eq_refl) as [_ H].
  destruct (H eq_refl) as [_ H']. exact (H' eq_refl).
Defined.

(** C2 as first read fails.  A call made before [connect] raises
    [AttributeError] inside the [try], and a call whose remote call raises
    [ValueError] raises it on: each is an attempt, and no counter moves. *)
Lemma attempt_left_uncounted :
  (let w := world (init "localhost" 50051 1)
              (outside accept token (Line "no")) in
   let cs := [RegisterUser (IdxInt 0)] in
   fst (call_each (map (perform Register Login) cs) w)
   = [Raise (OtherException "AttributeError"
               "'NoneType' object has no attribute 'Register'")] /\
   op_total OpRegister (stats (self w)) = 0 /\
   op_total OpRegister
     (stats (self (snd (call_each (map (perform Register Login) cs) w))))
   <> op_total OpRegister (stats (self w)) + Z.of_nat (List.length cs)) /\
  (let w := world (tester 1) (outside closed token (Line "no")) in
   let cs := [RegisterUser (IdxInt 0)] in
   fst (call_each (map (perform Register Login) cs) w)
   = [Raise (OtherException "ValueError"
               "Cannot invoke RPC on closed channel!")] /\
   op_total OpRegister (stats (self w)) = 0 /\
   op_total OpRegister
     (stats (self (snd (call_each (map (perform Register Login) cs) w))))
   <> op_total OpRegister (stats (self w)) + Z.of_nat (List.length cs)).
Proof.
  cbv zeta.
  split; (split; [reflexivity|]; split; [reflexivity|]);
    vm_compute; discriminate.
Qed.

(** C5 at work: ten registrations against the service that refuses every
    fourth call. *)
Lemma every_fourth_rate_limited_witness :
  let w := world (tester 10) O in
  let idxs := map IdxInt (range 10) in
  let s' :=
    stats (self (snd (call_each (map (register_user fourth_Register) idxs)
                        w))) in
  register_rate_limited s' = 2 /\ register_success s' = 8.
Proof.
  cbv zeta.
  apply (every_fourth_rate_limited nat fourth_Register (fun n => n)
           (fun _ _ _ => eq_refl)).
  - intros request t n. unfold fourth_Register, every_fourth; cbn [fst].
    destruct (S n mod 4 =? 0)%nat; eexists; reflexivity.
  - reflexivity.
  - reflexivity.
  - reflexivity.
Defined.

(** C6 at work: a registration that the service accepts. *)
Lemma outcome_recorded_witness :
  let w := world (tester 1) (outside accept token (Line "no")) in
  let c := RegisterUser (IdxInt 0) in
  (exists sent,
     wire (snd (perform Register Login c w)) = wire w ++ [sent] /\
     call_timeout sent = Some 10) /\
  is_ok (fst (perform Register Login c w)) = true /\
  op_total OpRegister (stats (self (snd (perform Register Login c w))))
  = op_total OpRegister (stats (self w)) + 1.
Proof.
  cbv zeta.
  exact (outcome_recorded_unless_other_exception Env Register Login
           (RegisterUser (IdxInt 0))
           (world (tester 1) (outside accept token (Line "no"))) eq_refl).
Defined.

(** C6 as first read fails: the remote call raises [ValueError]; the
    request went out with its timeout, the exception leaves
    [register_user], and no counter has recorded the attempt. *)
Lemma other_exception_not_recorded :
  let w := world (tester 1) (outside closed token (Line "no")) in
  let w' := snd (register_user Register (IdxInt 0) w) in
  fst (register_user Register (IdxInt 0) w)
  = Raise (OtherException "ValueError"
             "Cannot invoke RPC on closed channel!") /\
  List.length (wire w') = 1%nat /\
  forall k, count k (stats (self w')) = 0.
Proof.
  cbv zeta. split; [reflexivity|]. split; [reflexivity|].
  intros k; destruct k; reflexivity.
Qed.




(** The other branch of the classification: UNAVAILABLE counts as
    failed. *)
Example unavailable_is_a_failure :
  let w := world (tester 1) (outside unavailable token (Line "no")) in
  let c := RegisterUser (IdxStr "ratelimit_test_3") in
  fst (perform Register Login c w)
  = Ok [("success", VBool false); ("rate_limited", VBool false);
        ("error", VStr "failed to connect to all addresses")] /\
  register_failed (stats (self (snd (perform Register Login c w)))) = 1 /\
  wire (snd (perform Register Login c w))
  = [CallRegister
       {| req_email := "userratelimit_test_3_abcdef@loadtest.com";
          req_password := "ghijklmnopqr";
          req_username := "userratelimit_test_3" |} (Some 10)].
Proof. run. Qed.

(** A whole run against the service that refuses every fourth
    registration and every login, the user declining the bulk creation. *)
Example run_declined :
  let w := world (init "" 0 0) (outside every_fourth throttled (Line "no")) in
  let w' := snd (main Register Login time now sleep input next w) in
  stdout w'
  = [MBanner "0"; MConnected "localhost" 50051; MPhase1;
     MTestHeader OpRegister 10;
     MAttemptSuccess OpRegister 1; MAttemptSuccess OpRegister 2;
     MAttemptSuccess OpRegister 3; MAttemptRateLimited OpRegister 4;
     MAttemptSuccess OpRegister 5; MAttemptSuccess OpRegister 6;
     MAttemptSuccess OpRegister 7; MAttemptRateLimited OpRegister 8;
     MAttemptSuccess OpRegister 9; MAttemptSuccess OpRegister 10;
     MTestResults OpRegister 8 2 None; MRateLimitVerdict true;
     MWaiting; MTestHeader OpLogin 10; MCreatingTestUser;
     MAttemptRateLimited OpLogin 1; MAttemptRateLimited OpLogin 2;
     MAttemptRateLimited OpLogin 3; MAttemptRateLimited OpLogin 4;
     MAttemptRateLimited OpLogin 5; MAttemptRateLimited OpLogin 6;
     MAttemptRateLimited OpLogin 7; MAttemptRateLimited OpLogin 8;
     MAttemptRateLimited OpLogin 9; MAttemptRateLimited OpLogin 10;
     MTestResults OpLogin 0 10 (Some 0); MRateLimitVerdict true;
     MPhase2; MSkippingBulk;
     MSummary 10000 (stats (self w')); MDisconnected; MEndTime "4000"] /\
  register_success (stats (self w')) = 9 /\
  register_rate_limited (stats (self w')) = 2 /\
  login_rate_limited (stats (self w')) = 10.
Proof. run. Qed.

(** X1 at work: the emails of indices 1 and 2, from the same state of the
    generator. *)
Lemma emails_of_different_indices_differ_witness :
  let w := world (tester 2) (outside accept token (Line "no")) in
  fst (generate_random_email (IdxInt 1) w)
  <> fst (generate_random_email (IdxInt 2) w).
Proof.
  cbv zeta.
  apply (emails_of_different_indices_differ Env 1 2
           (world (tester 2) (outside accept token (Line "no")))
           (world (tester 2) (outside accept token (Line "no")))).
  discriminate.
Defined.

(** X2 at work: a login that the service accepts. *)
Lemma login_user_returns_token_witness :
  let w := world (tester 1) (outside accept token (Line "no")) in
  fst (login_user Login "user0_abcdef@loadtest.com" "ghijklmnopqr" w)
  = Ok [("success", VBool true); ("token", VStr "token1")].
Proof.
  cbv zeta.
  apply (login_user_returns_token Env Login
           "user0_abcdef@loadtest.com" "ghijklmnopqr"
           (world (tester 1) (outside accept token (Line "no")))
           {| access_token := "token1" |}
           (snd (Login {| login_email := "user0_abcdef@loadtest.com";
                          login_password := "ghijklmnopqr" |} (Some 10)
                   (outside accept token (Line "no"))))).
  - reflexivity.
  - reflexivity.
Defined.

(** X3 at work: five attempts against the service that refuses every
    fourth registration. *)
Lemma register_test_reports_counters_witness :
  let w := world (tester 1) (outside every_fourth token (Line "no")) in
  let w' := snd (test_rate_limiting_register Register sleep 5 w) in
  List.length (wire w') = 5%nat /\
  register_success (stats (self w')) = 4 /\
  register_rate_limited (stats (self w')) = 1.
Proof.
  cbv zeta.
  pose proof (register_test_reports_counters Env Register sleep 5
                (world (tester 1) (outside every_fourth token (Line "no"))))
    as H.
  destruct H as (Hw & _); [vm_compute; reflexivity|].
  split; [exact Hw|]. split; vm_compute; reflexivity.
Defined.

(** X4 at work: three logins with a recorded user. *)
Lemma login_test_uses_first_created_user_witness :
  let w := world (set_created_users [recorded_user] (tester 1))
             (outside accept token (Line "no")) in
  wire (snd (test_rate_limiting_login Register Login sleep 3 w))
  = repeat (CallLogin {| login_email := "user0_abcdef@loadtest.com";
                         login_password := "ghijklmnopqr" |} (Some 10)) 3.
Proof.
  cbv zeta.
  apply (login_test_uses_first_created_user Env Register Login sleep 3
           (world (set_created_users [recorded_user] (tester 1))
              (outside accept token (Line "no")))
           recorded_user [] "user0_abcdef@loadtest.com" "ghijklmnopqr").
  - reflexivity.
  - reflexivity.
  - reflexivity.
  - vm_compute; reflexivity.
Defined.

(** X5 at work: with nobody recorded, the test registers user 999999 and
    logs in three times with what it registered. *)
Lemma login_test_registers_its_own_user_witness :
  let w := world (tester 1) (outside accept token (Line "no")) in
  let w' := snd (test_rate_limiting_login Register Login sleep 3 w) in
  wire w'
  = CallRegister {| req_email := "user999999_abcdef@loadtest.com";
                    req_password := "ghijklmnopqr";
                    req_username := "user999999" |} (Some 10)
    :: repeat (CallLogin {| login_email := "user999999_abcdef@loadtest.com";
                            login_password := "ghijklmnopqr" |} (Some 10)) 3
  /\ register_success (stats (self w')) = 1 /\
  created_users (self w') = [].
Proof.
  cbv zeta.
  pose proof (login_test_registers_its_own_user Env Register Login sleep 3
                (world (tester 1) (outside accept token (Line "no")))
                (fst (register_request (IdxInt 999999) (fun n => n)))
                (snd (register_request (IdxInt 999999) (fun n => n)))
                {| user := {| id := "id1" |} |}
                (snd (Register
                        (fst (register_request (IdxInt 999999)
                                (fun n => n)))
                        (Some 10) (outside accept token (Line "no")))))
    as H.
  destruct H as (Hw & Hs & _ & Hc);
    [reflexivity|reflexivity|reflexivity|reflexivity
    |vm_compute; reflexivity|].
  split; [exact Hw|]. split; [exact Hs|exact Hc].
Defined.

(** X6 at work: the service is unavailable, the test user cannot be
    registered, and no login is tried. *)
Lemma login_test_skipped_without_user_witness :
  let w := world (tester 1) (outside unavailable token (Line "no")) in
  let w' := snd (test_rate_limiting_login Register Login sleep 10 w) in
  fst (test_rate_limiting_login Register Login sleep 10 w) = Ok tt /\
  List.length (wire w') = 1%nat /\
  stdout w' = [MTestHeader OpLogin 10; MCreatingTestUser;
               MSkippingLoginTest].
Proof.
  cbv zeta.
  pose proof (login_test_skipped_without_user Env Register Login sleep 10
                (world (tester 1) (outside unavailable token (Line "no")))
                UNAVAILABLE "failed to connect to all addresses")
    as H.
  destruct H as (Hr & Hw & _ & Hout); [reflexivity..|].
  split; [exact Hr|]. split; [|exact Hout].
  now rewrite Hw.
Defined.


(** X9 at work: a batch of five on a clock that advances. *)
Lemma batch_returns_only_with_time_measured_witness :
  let w := world (tester 5) (outside every_fourth token (Line "no")) in
  total_time
    (stats (self (snd (create_users_batch Register time next 100 20 w))))
  <> 0.
Proof.
  cbv zeta.
  apply (batch_returns_only_with_time_measured Env Register time next
           100 20
           (world (tester 5) (outside every_fourth token (Line "no")))).
  vm_compute; reflexivity.
Defined.

End Examples.
